(** * authn-server: configuration pipeline, secret derivation, account archiver

    A shallow embedding of [app/env.go], of the configurers of package [app]
    and of [services/account_archiver.go], with the properties of the
    specification stated and proved against it.

    Go values are modelled as follows: a Go [string] is a Rocq [string] (a
    sequence of 8-bit characters), a [[]byte] is a [list byte], an [int] is a
    [Z] within the 64-bit range, a pointer that may be [nil] is an [option],
    an [error] is a value of the inductive type [error] and a pair
    [(v, err)] of results is a Rocq pair whose second component is
    [option error] ([None] is [nil]).  The process environment is a finite
    map from variable names to values and the file system a finite map from
    paths to contents. *)

From Stdlib Require Import ZArith List Lia Strings.Byte Ascii String.
From Stdlib Require Import Decimal DecimalString DecimalPos DecimalZ.
From stdpp Require Import base option gmap strings list.

Local Open Scope string_scope.
Local Open Scope list_scope.
Local Open Scope Z_scope.

(* ===================================================================== *)
(** * Part I: definitions                                                 *)
(* ===================================================================== *)

(** ** The Go values shared by both packages *)

(** The line feed character, written ["\n"] inside a Go interpreted string
    literal. *)
Definition LF : ascii := ascii_of_nat 10.

(** [[]byte(s)] and [string(b)]: a conversion that copies the bytes. *)
Definition bytes_of_string (s : string) : list byte := list_byte_of_string s.
Definition string_of_bytes (b : list byte) : string := string_of_list_byte b.

(** Why [strconv] refused a number. *)
Inductive NumErr : Type :=
| ErrSyntax
| ErrRange.

(** One entry of [services.FieldErrors]: a field name and a message code. *)
Record FieldError : Type := mkFieldError {
  Field : string;
  Message : string
}.

(** The values of Go's [error] interface that this code builds or passes on. *)
Inductive error : Type :=
| ErrMissingEnvVar (name : string)            (* app.ErrMissingEnvVar *)
| PathError (op path : string)                (* *os.PathError *)
| NumError (func num : string) (why : NumErr) (* *strconv.NumError *)
| LibError (pkg msg : string)                 (* an error of a library call *)
| Errorf (msg : string)                       (* fmt.Errorf *)
| Wrap (cause : error) (msg : string)         (* errors.Wrap *)
| FieldErrors (errs : list FieldError).       (* services.FieldErrors *)

(** What running a function body yields: it returns a value, or the
    goroutine panics (nil dereference, slice bounds out of range). *)
Inductive outcome (A : Type) : Type :=
| Returns (a : A)
| Panics (why : string).
Arguments Returns {A} a.
Arguments Panics {A} why.

(** The operating system as this code sees it: [os.LookupEnv] reads
    [environ], [ioutil.ReadFile] reads [files]. *)
Record OS : Type := mkOS {
  environ : gmap string string;
  files : gmap string (list byte)
}.

Definition LookupEnv (os : OS) (name : string) : option string :=
  environ os !! name.

(** [ioutil.ReadFile]: the contents, or a [*PathError] when the file cannot
    be opened. *)
Definition ReadFile (os : OS) (fileName : string) : list byte * option error :=
  match files os !! fileName with
  | Some contents => (contents, None)
  | None => ([], Some (PathError "open" fileName))
  end.

(** ** package strconv *)

Module strconv.

Definition digit (c : ascii) : option Z :=
  let n := Z.of_N (N_of_ascii c) in
  if (48 <=? n) && (n <=? 57) then Some (n - 48) else None.

(** The value of a run of decimal digits, [None] at the first character that
    is no digit. *)
Fixpoint digits (acc : Z) (s : string) : option Z :=
  match s with
  | EmptyString => Some acc
  | String c rest =>
      match digit c with
      | Some d => digits (acc * 10 + d) rest
      | None => None
      end
  end.

Definition maxInt : Z := 2 ^ 63 - 1.
Definition minInt : Z := - 2 ^ 63.

(** [strconv.Atoi] on a 64-bit platform: an optional sign, then at least one
    decimal digit.  A syntax error gives 0; a value out of range gives the
    nearest bound; both come with a [*NumError]. *)
Definition Atoi (s : string) : Z * option error :=
  let syntax := (0, Some (NumError "Atoi" s ErrSyntax)) in
  let range (v : Z) := (v, Some (NumError "Atoi" s ErrRange)) in
  match s with
  | EmptyString => syntax
  | String c rest =>
      let neg := Ascii.eqb c "-" in
      let body := if neg || Ascii.eqb c "+" then rest else s in
      match body with
      | EmptyString => syntax
      | _ =>
          match digits 0 body with
          | None => syntax
          | Some un =>
              if neg
              then (if un <=? 2 ^ 63 then (- un, None) else range minInt)
              else (if un <=? maxInt then (un, None) else range maxInt)
          end
      end
  end.

End strconv.

(** ** package unicode/utf8 and unicode *)

Module utf8.

(** A rune is a Unicode code point, Go's [int32]. *)
Definition rune : Type := Z.

Definition RuneError : rune := 0xFFFD.

(** How many bytes the encoding that starts with [b0] has; 0 when no
    encoding starts with it (a continuation byte, an overlong lead 0xC0 or
    0xC1, or a lead beyond U+10FFFF). *)
Definition width (b0 : Z) : nat :=
  if b0 <? 0x80 then 1%nat
  else if b0 <? 0xC2 then 0%nat
  else if b0 <? 0xE0 then 2%nat
  else if b0 <? 0xF0 then 3%nat
  else if b0 <? 0xF5 then 4%nat
  else 0%nat.

(** The range the second byte must lie in: narrower after 0xE0 and 0xF0
    (overlong forms), 0xED (surrogates) and 0xF4 (beyond U+10FFFF). *)
Definition second_ok (b0 b1 : Z) : bool :=
  ((if b0 =? 0xE0 then 0xA0 else if b0 =? 0xF0 then 0x90 else 0x80) <=? b1)
  && (b1 <=? (if b0 =? 0xED then 0x9F else if b0 =? 0xF4 then 0x8F else 0xBF)).

Definition cont_ok (b : Z) : bool := (0x80 <=? b) && (b <=? 0xBF).

Definition low6 (b : Z) : Z := Z.land b 0x3F.

(** The runes of a byte sequence, as [utf8.DecodeRune] applied from left to
    right yields them: a byte that starts no valid encoding is one
    [RuneError] of width 1. *)
Fixpoint decode (s : list Z) : list rune :=
  match s with
  | [] => []
  | b0 :: t0 =>
      match width b0, t0 with
      | 1%nat, _ => b0 :: decode t0
      | 2%nat, b1 :: t1 =>
          if second_ok b0 b1
          then Z.lor (Z.shiftl (Z.land b0 0x1F) 6) (low6 b1) :: decode t1
          else RuneError :: decode t0
      | 3%nat, b1 :: b2 :: t2 =>
          if second_ok b0 b1 && cont_ok b2
          then Z.lor (Z.shiftl (Z.land b0 0x0F) 12)
                 (Z.lor (Z.shiftl (low6 b1) 6) (low6 b2)) :: decode t2
          else RuneError :: decode t0
      | 4%nat, b1 :: b2 :: b3 :: t3 =>
          if second_ok b0 b1 && cont_ok b2 && cont_ok b3
          then Z.lor (Z.shiftl (Z.land b0 0x07) 18)
                 (Z.lor (Z.shiftl (low6 b1) 12)
                    (Z.lor (Z.shiftl (low6 b2) 6) (low6 b3))) :: decode t3
          else RuneError :: decode t0
      | _, _ => RuneError :: decode t0
      end
  end.

Definition code (c : ascii) : Z := Z.of_N (N_of_ascii c).

(** The runes of a Go string. *)
Definition runes (s : string) : list rune :=
  decode (map code (list_ascii_of_string s)).

(** [unicode.SimpleFold] on the orbits that meet ASCII: the next larger rune
    of the orbit, or the smallest one after the largest.  The Kelvin sign
    U+212A folds with [k] and the long s U+017F with [s]; every other letter
    of ASCII has only its other case.  Runes outside these orbits are left
    alone here: a matcher only walks the orbit of a rune of its pattern. *)
Definition SimpleFold (r : rune) : rune :=
  if r =? 0x4B then 0x6B            (* K -> k *)
  else if r =? 0x6B then 0x212A     (* k -> Kelvin sign *)
  else if r =? 0x212A then 0x4B     (* Kelvin sign -> K *)
  else if r =? 0x53 then 0x73       (* S -> s *)
  else if r =? 0x73 then 0x17F      (* s -> long s *)
  else if r =? 0x17F then 0x53      (* long s -> S *)
  else if (0x41 <=? r) && (r <=? 0x5A) then r + 32
  else if (0x61 <=? r) && (r <=? 0x7A) then r - 32
  else r.

End utf8.

(** ** package regexp *)

Module regexp.
Import utf8.

(** A compiled pattern, for the part of the syntax without repetition. *)
Inductive Regexp : Type :=
| EmptyMatch                         (* the empty pattern *)
| BeginText                          (* ^ without the m flag *)
| EndText                            (* $ without the m flag *)
| Literal (r : rune) (foldCase : bool) (* one rune, under (?i) or not *)
| Concat (a b : Regexp)
| Alternate (a b : Regexp).

(** The rune instruction on a literal: the rune itself, and under (?i) every
    other rune that [SimpleFold] reaches before coming back to it.  [n]
    bounds the walk along the orbit. *)
Fixpoint foldReaches (n : nat) (r0 r1 r : rune) : bool :=
  match n with
  | O => false
  | S n' =>
      if r1 =? r0 then false
      else (r =? r1) || foldReaches n' r0 (SimpleFold r1) r
  end.

Definition MatchRune (r0 : rune) (foldCase : bool) (r : rune) : bool :=
  (r =? r0) || (foldCase && foldReaches 4 r0 (SimpleFold r0) r).

(** [matchAt re atBegin s k]: [re] matches a prefix of the text [s], which
    starts at the beginning of the input iff [atBegin], and [k] accepts what
    follows. *)
Fixpoint matchAt (re : Regexp) (atBegin : bool) (s : list rune)
    (k : bool -> list rune -> bool) : bool :=
  match re with
  | EmptyMatch => k atBegin s
  | BeginText => atBegin && k atBegin s
  | EndText => match s with [] => k atBegin s | _ :: _ => false end
  | Literal r0 foldCase =>
      match s with
      | [] => false
      | r :: s' => MatchRune r0 foldCase r && k false s'
      end
  | Concat a b => matchAt a atBegin s (fun atb s' => matchAt b atb s' k)
  | Alternate a b => matchAt a atBegin s k || matchAt b atBegin s k
  end.

(** An unanchored search: a match may start at any rune of the text. *)
Fixpoint search (re : Regexp) (atBegin : bool) (s : list rune) : bool :=
  matchAt re atBegin s (fun _ _ => true)
  || match s with
     | [] => false
     | _ :: s' => search re false s'
     end.

(** [regexp.MatchString] for a pattern that compiles: whether the string
    contains a match, and no error. *)
Definition MatchString (re : Regexp) (s : string) : bool * option error :=
  (search re true (runes s), None).

(** The literal string [w] under the flag (?i). *)
Fixpoint foldWord (w : list rune) : Regexp :=
  match w with
  | [] => EmptyMatch
  | r :: w' => Concat (Literal r true) (foldWord w')
  end.

End regexp.

(** ** package hash, crypto/sha256, crypto/hmac *)

Definition byte_of_Z (z : Z) : byte :=
  match Byte.of_N (Z.to_N (z mod 256)) with
  | Some b => b
  | None => x00
  end.

Definition Z_of_byte (b : byte) : Z := Z.of_N (Byte.to_N b).

Definition xor_byte (a b : byte) : byte :=
  byte_of_Z (Z.lxor (Z_of_byte a) (Z_of_byte b)).

(** Go's [hash.Hash], as far as its callers here use it: [Sum] is the hash
    of everything written, and [Size] is the number of bytes [Sum] returns,
    which the interface promises. *)
Record Hash : Type := mkHash {
  Size : Z;
  BlockSize : Z;
  Sum : list byte -> list byte;
  Sum_length : forall m, Z.of_nat (length (Sum m)) = Size
}.

Module sha256.

Definition mask32 (x : Z) : Z := x mod 2 ^ 32.
Definition add32 (x y : Z) : Z := mask32 (x + y).
Definition rotr (n x : Z) : Z :=
  Z.lor (Z.shiftr x n) (mask32 (Z.shiftl x (32 - n))).
Definition not32 (x : Z) : Z := Z.lxor x 0xFFFFFFFF.

Definition Ch (x y z : Z) : Z := Z.lxor (Z.land x y) (Z.land (not32 x) z).
Definition Maj (x y z : Z) : Z :=
  Z.lxor (Z.lxor (Z.land x y) (Z.land x z)) (Z.land y z).
Definition bigSigma0 (x : Z) : Z :=
  Z.lxor (Z.lxor (rotr 2 x) (rotr 13 x)) (rotr 22 x).
Definition bigSigma1 (x : Z) : Z :=
  Z.lxor (Z.lxor (rotr 6 x) (rotr 11 x)) (rotr 25 x).
Definition smallSigma0 (x : Z) : Z :=
  Z.lxor (Z.lxor (rotr 7 x) (rotr 18 x)) (Z.shiftr x 3).
Definition smallSigma1 (x : Z) : Z :=
  Z.lxor (Z.lxor (rotr 17 x) (rotr 19 x)) (Z.shiftr x 10).

(** The first primes, by trial division. *)
Definition is_prime (n : Z) : bool :=
  forallb (fun d => negb (n mod d =? 0))
    (map Z.of_nat (seq 2 (Z.to_nat n - 2))).

Definition primes (count : nat) : list Z :=
  firstn count (filter is_prime (map Z.of_nat (seq 2 320))).

(** The largest [r] below [2 ^ bits] with [r ^ 3 <= n], bit by bit. *)
Fixpoint cube_root (bits : nat) (n acc : Z) : Z :=
  match bits with
  | O => acc
  | S b =>
      let c := acc + 2 ^ Z.of_nat b in
      cube_root b n (if c ^ 3 <=? n then c else acc)
  end.

(** The round constants: the first 32 bits of the fractional parts of the
    cube roots of the first 64 primes. *)
Definition K : list Z :=
  Eval vm_compute in
    map (fun p => mask32 (cube_root 36 (p * 2 ^ 96) 0)) (primes 64).

(** The chaining value: eight 32-bit words. *)
Record digest : Type := mkDigest {
  h0 : Z; h1 : Z; h2 : Z; h3 : Z; h4 : Z; h5 : Z; h6 : Z; h7 : Z
}.

(** The initial value: the first 32 bits of the fractional parts of the
    square roots of the first 8 primes. *)
Definition init : digest :=
  Eval vm_compute in
    match map (fun p => mask32 (Z.sqrt (p * 2 ^ 64))) (primes 8) with
    | [a; b; c; d; e; f; g; h] => mkDigest a b c d e f g h
    | _ => mkDigest 0 0 0 0 0 0 0 0
    end.

(** The message schedule of one block of sixteen words. *)
Fixpoint schedule (n : nat) (w : list Z) : list Z :=
  match n with
  | O => w
  | S n' =>
      let i := length w in
      let at_ (k : nat) := nth (i - k) w 0 in
      schedule n'
        (w ++ [add32 (add32 (smallSigma1 (at_ 2%nat)) (at_ 7%nat))
                 (add32 (smallSigma0 (at_ 15%nat)) (at_ 16%nat))])
  end.

Definition round (s : digest) (kw : Z * Z) : digest :=
  let '(mkDigest a b c d e f g h) := s in
  let t1 := add32 (add32 (add32 h (bigSigma1 e)) (Ch e f g))
              (add32 (fst kw) (snd kw)) in
  let t2 := add32 (bigSigma0 a) (Maj a b c) in
  mkDigest (add32 t1 t2) a b c (add32 d t1) e f g.

Definition compress (s : digest) (block : list Z) : digest :=
  let '(mkDigest a b c d e f g h) :=
    fold_left round (combine K (schedule 48 block)) s in
  mkDigest (add32 (h0 s) a) (add32 (h1 s) b) (add32 (h2 s) c)
    (add32 (h3 s) d) (add32 (h4 s) e) (add32 (h5 s) f)
    (add32 (h6 s) g) (add32 (h7 s) h).

(** Big-endian bytes of a number, [n] of them. *)
Fixpoint be_bytes (n : nat) (x : Z) : list byte :=
  match n with
  | O => []
  | S n' => byte_of_Z (Z.shiftr x (8 * Z.of_nat n')) :: be_bytes n' x
  end.

Fixpoint be_words (bs : list byte) : list Z :=
  match bs with
  | a :: b :: c :: d :: rest =>
      (Z_of_byte a * 2 ^ 24 + Z_of_byte b * 2 ^ 16
       + Z_of_byte c * 2 ^ 8 + Z_of_byte d) :: be_words rest
  | _ => []
  end.

(** The message, the byte 0x80, zeros up to 56 modulo 64, and the length of
    the message in bits as 8 bytes. *)
Definition pad (m : list byte) : list byte :=
  let len := Z.of_nat (length m) in
  m ++ [byte_of_Z 0x80]
    ++ repeat x00 (Z.to_nat ((55 - len) mod 64))
    ++ be_bytes 8 (8 * len).

Fixpoint blocks (n : nat) (ws : list Z) : list (list Z) :=
  match n with
  | O => []
  | S n' => firstn 16 ws :: blocks n' (skipn 16 ws)
  end.

Definition Sum256 (m : list byte) : list byte :=
  let ws := be_words (pad m) in
  let '(mkDigest a b c d e f g h) :=
    fold_left compress (blocks (length ws / 16) ws) init in
  be_bytes 4 a ++ be_bytes 4 b ++ be_bytes 4 c ++ be_bytes 4 d
    ++ be_bytes 4 e ++ be_bytes 4 f ++ be_bytes 4 g ++ be_bytes 4 h.

Lemma Sum256_length (m : list byte) : Z.of_nat (length (Sum256 m)) = 32.
Proof.
  unfold Sum256.
  destruct (fold_left compress _ init) as [a b c d e f g h].
  reflexivity.
Qed.

(** [sha256.New] *)
Definition New : Hash := mkHash 32 64 Sum256 Sum256_length.

End sha256.

Module hmac.

(** Bytes written at the same place are combined; the longer tail of the
    first argument is kept. *)
Fixpoint xor_bytes (a b : list byte) : list byte :=
  match a, b with
  | x :: a', y :: b' => xor_byte x y :: xor_bytes a' b'
  | _, _ => a
  end.

(** [hmac.New(h, key)] followed by [Write(m)] and [Sum(nil)]: a key longer
    than a block is hashed first, then padded with zeros to a block. *)
Definition MAC (h : Hash) (key m : list byte) : list byte :=
  let key0 := if BlockSize h <? Z.of_nat (length key) then Sum h key else key in
  let padded := key0 ++ repeat x00 (Z.to_nat (BlockSize h) - length key0) in
  let ipad := map (xor_byte (byte_of_Z 0x36)) padded in
  let opad := map (xor_byte (byte_of_Z 0x5c)) padded in
  Sum h (opad ++ Sum h (ipad ++ m)).

End hmac.

(** ** package golang.org/x/crypto/pbkdf2 *)

Module pbkdf2.

(** One block [T_i = U_1 ^ U_2 ^ ... ^ U_iter] with
    [U_1 = PRF(password, salt || uint32(i))] and
    [U_n = PRF(password, U_(n-1))]. *)
Definition block (prf : list byte -> list byte) (salt : list byte)
    (iter : Z) (i : Z) : list byte :=
  let U1 := prf (salt ++ sha256.be_bytes 4 i) in
  snd (N.iter (Z.to_N (iter - 1))
         (fun UT : list byte * list byte =>
            let U := prf (fst UT) in (U, hmac.xor_bytes (snd UT) U))
         (U1, U1)).

(** [pbkdf2.Key(password, salt, iter, keyLen, h)]: as many blocks as cover
    [keyLen] bytes, cut to [keyLen]. *)
Definition Key (password salt : list byte) (iter keyLen : Z) (h : Hash)
  : list byte :=
  let prf := hmac.MAC h password in
  let hashLen := Size h in
  let numBlocks := (keyLen + hashLen - 1) / hashLen in
  let dk :=
    flat_map (fun i => block prf salt iter (Z.of_nat i))
      (seq 1 (Z.to_nat numBlocks)) in
  firstn (Z.to_nat keyLen) dk.

End pbkdf2.

(** Lower-case hexadecimal, as test vectors are written. *)
Definition hexDigit (n : Z) : ascii :=
  ascii_of_nat (Z.to_nat (if n <? 10 then 48 + n else 87 + n)).

Definition hex (bs : list byte) : string :=
  string_of_list_ascii
    (flat_map (fun b => [hexDigit (Z_of_byte b / 16); hexDigit (Z_of_byte b mod 16)])
       bs).

(** ** package strings *)

Module strings.

(** [replace skip s old new]: the characters of [s], each occurrence of the
    non-empty [old] replaced by [new], from left to right and without
    overlap; [skip] counts the characters of an occurrence still to pass. *)
Fixpoint replace (skip : nat) (s old new : string) : string :=
  match s with
  | EmptyString => EmptyString
  | String ch rest =>
      match skip with
      | S k => replace k rest old new
      | O =>
          if String.prefix old s
          then new +:+ replace (String.length old - 1) rest old new
          else String ch (replace 0 rest old new)
      end
  end.

(** [strings.Replace(s, old, new, -1)] for a non-empty [old]. *)
Definition ReplaceAll (s old new : string) : string := replace 0 s old new.

End strings.

(** ** package net/url *)

Module url.

Record URL : Type := mkURL {
  Scheme : string;
  Opaque : string;
  User : option (string * option string);
  Host : string;
  Path : string;
  RawPath : string;
  ForceQuery : bool;
  RawQuery : string;
  Fragment : string
}.

(** What is before and after the last [sep] of [s], if there is one. *)
Fixpoint cutLast (sep : ascii) (s : string) : option (string * string) :=
  match s with
  | EmptyString => None
  | String ch rest =>
      match cutLast sep rest with
      | Some (before, after) => Some (String ch before, after)
      | None => if Ascii.eqb ch sep then Some (EmptyString, rest) else None
      end
  end.

Fixpoint allDigits (s : string) : bool :=
  match s with
  | EmptyString => true
  | String ch rest =>
      match strconv.digit ch with
      | Some _ => allDigits rest
      | None => false
      end
  end.

(** [validOptionalPort] on [":" + port]: only digits after the colon. *)
Definition validOptionalPort (port : string) : bool := allDigits port.

(** [splitHostPort]: the text after the last colon is the port when it is
    made of digits; otherwise the port is empty.  A host in square brackets
    loses them. *)
Definition splitHostPort (hostPort : string) : string * string :=
  let '(host, port) :=
    match cutLast ":" hostPort with
    | Some (before, after) =>
        if validOptionalPort after then (before, after)
        else (hostPort, EmptyString)
    | None => (hostPort, EmptyString)
    end in
  let n := String.length host in
  if String.prefix "[" host && String.eqb (String.substring (n - 1) 1 host) "]"
  then (String.substring 1 (n - 2) host, port)
  else (host, port).

(** [func (u *URL) Port() string] *)
Definition Port (u : URL) : string := snd (splitHostPort (Host u)).

End url.

(** ** package encoding/pem *)

Module pem.

Record Block : Type := mkBlock {
  Type_ : string;
  Headers : list (string * string);
  Bytes : list byte
}.

(** Whether [sub] occurs in [s]. *)
Fixpoint contains (sub s : string) : bool :=
  String.prefix sub s
  || match s with
     | EmptyString => false
     | String _ rest => contains sub rest
     end.

(** A block can only start with [-----BEGIN ] at the beginning of the data
    or after a line feed. *)
Definition hasStart (data : string) : bool :=
  String.prefix "-----BEGIN " data
  || contains (String LF "-----BEGIN ") data.

End pem.

(** ** What the rest of the program and its libraries provide *)

(** The types of other packages that [Config] mentions, and the library
    functions whose results the configurers only pass on.  A function that
    returns a pointer and an error returns a pair of options here. *)
Class Externals : Type := mkExternals {
  route_Domain : Type;            (* route.Domain *)
  private_Key : Type;             (* private.Key *)
  rsa_PrivateKey : Type;          (* rsa.PrivateKey *)
  time_Location : Type;           (* time.Location *)
  oauth_Credentials : Type;       (* oauth.Credentials *)
  ops_ErrorReporterType : Type;   (* ops.ErrorReporterType *)
  url_Parse : string -> option url.URL * option error;
  (* what pem.Decode does with data in which a block may start *)
  pem_decodeFrom : list byte -> option pem.Block * list byte;
  x509_ParsePKCS1PrivateKey :
    list byte -> option rsa_PrivateKey * option error;
  private_NewKey : option rsa_PrivateKey -> option private_Key * option error
}.

(** [pem.Decode]: when no block starts anywhere in the data, the block is
    [nil] and the rest is the whole data. *)
Definition pem_Decode `{Externals} (data : list byte)
  : option pem.Block * list byte :=
  if pem.hasStart (string_of_bytes data)
  then pem_decodeFrom data
  else (None, data).

(** ** package app, file env.go *)

(** [func (name ErrMissingEnvVar) Error() string] *)
Definition ErrMissingEnvVar_Error (name : string) : string :=
  "missing environment variable: " +:+ name.

Definition requireEnv (os : OS) (name : string) : string * option error :=
  match LookupEnv os name with
  | Some val => (val, None)
  | None => ("", Some (ErrMissingEnvVar name))
  end.

Definition lookupInt (os : OS) (name : string) (def : Z) : Z * option error :=
  match LookupEnv os name with
  | Some val => strconv.Atoi val
  | None => (def, None)
  end.

(** The pattern ["^(?i:t|true|yes)$"] of [lookupBool], compiled. *)
Definition truthyPattern : regexp.Regexp :=
  regexp.Concat regexp.BeginText
    (regexp.Concat
       (regexp.Alternate (regexp.foldWord (utf8.runes "t"))
          (regexp.Alternate (regexp.foldWord (utf8.runes "true"))
             (regexp.foldWord (utf8.runes "yes"))))
       regexp.EndText).

Definition lookupBool (os : OS) (name : string) (def : bool)
  : bool * option error :=
  match LookupEnv os name with
  | Some val => regexp.MatchString truthyPattern val
  | None => (def, None)
  end.

(** *** What the specification calls the truthy vocabulary *)

(** Simple case folding to the lower-case letter, for the letters of ASCII
    and the two runes outside ASCII that fold with one of them. *)
Definition foldKey (r : utf8.rune) : utf8.rune :=
  if (0x41 <=? r) && (r <=? 0x5A) then r + 32
  else if r =? 0x17F then 0x73
  else if r =? 0x212A then 0x6B
  else r.

(** Two strings match case-insensitively when they have as many runes and
    the runes at each place fold to the same letter. *)
Definition EqualFold (s t : string) : Prop :=
  Forall2 (fun a b => foldKey a = foldKey b) (utf8.runes s) (utf8.runes t).

Definition truthyVocabulary : list string := ["t"; "true"; "yes"].

(** A word written in the lower-case letters of ASCII. *)
Definition lowerWord (w : list utf8.rune) : Prop :=
  Forall (fun b => 0x61 <= b <= 0x7A) w.

(** Sequencing of statements: a panic ends the function. *)
#[global] Instance outcome_bind : MBind outcome := fun A B f m =>
  match m with
  | Returns a => f a
  | Panics why => Panics why
  end.

Section App.
Context `{Externals}.

Definition lookupURL (os : OS) (name : string)
  : option url.URL * option error :=
  match LookupEnv os name with
  | Some val => url_Parse val
  | None => (None, None)
  end.

Definition lookupSecureURL (os : OS) (name : string)
  : option url.URL * option error :=
  match LookupEnv os name with
  | Some fileName =>
      let (val, err) := ReadFile os fileName in
      match err with
      | Some e => (None, Some e)
      | None => url_Parse (string_of_bytes val)
      end
  | None => (None, None)
  end.

(** ** package app, the configuration record and its configurers *)

(** [Config]: a [time.Duration] is a number of nanoseconds. *)
Record Config : Type := mkConfig {
  AppPasswordlessTokenURL : option url.URL;
  PasswordlessTokenTTL : Z;
  PasswordlessTokenSigningKey : list byte;
  AppPasswordResetURL : option url.URL;
  AppPasswordChangedURL : option url.URL;
  ApplicationDomains : list route_Domain;
  BcryptCost : Z;
  UsernameIsEmail : bool;
  UsernameMinLength : Z;
  UsernameDomains : list string;
  PasswordMinComplexity : Z;
  RefreshTokenTTL : Z;
  RedisURL : option url.URL;
  DatabaseURL : option url.URL;
  SessionCookieName : string;
  OAuthCookieName : string;
  SessionSigningKey : list byte;
  ResetSigningKey : list byte;
  DBEncryptionKey : list byte;
  OAuthSigningKey : list byte;
  ResetTokenTTL : Z;
  IdentitySigningKey : option private_Key;
  AuthNURL : option url.URL;
  ForceSSL : bool;
  MountedPath : string;
  AccessTokenTTL : Z;
  AuthUsername : string;
  AuthPassword : string;
  EnableSignup : bool;
  StatisticsTimeZone : option time_Location;
  DailyActivesRetention : Z;
  WeeklyActivesRetention : Z;
  ErrorReporterCredentials : string;
  ErrorReporterType : ops_ErrorReporterType;
  ServerPort : Z;
  PublicPort : Z;
  Proxied : bool;
  GoogleOauthCredentials : option oauth_Credentials;
  GitHubOauthCredentials : option oauth_Credentials;
  FacebookOauthCredentials : option oauth_Credentials;
  DiscordOauthCredentials : option oauth_Credentials
}.

Definition set_SessionSigningKey (v : list byte) (c : Config) : Config :=
  let '(mkConfig f0 f1 f2 f3 f4 f5 f6 f7 f8 f9 f10 f11 f12 f13 f14 f15 f16 f17
      f18 f19 f20 f21 f22 f23 f24 f25 f26 f27 f28 f29 f30 f31 f32 f33 f34 f35
      f36 f37 f38 f39 f40) := c in
  mkConfig f0 f1 f2 f3 f4 f5 f6 f7 f8 f9 f10 f11 f12 f13 f14 f15 v f17 f18 f19
    f20 f21 f22 f23 f24 f25 f26 f27 f28 f29 f30 f31 f32 f33 f34 f35 f36 f37
    f38 f39 f40.

Definition set_ResetSigningKey (v : list byte) (c : Config) : Config :=
  let '(mkConfig f0 f1 f2 f3 f4 f5 f6 f7 f8 f9 f10 f11 f12 f13 f14 f15 f16 f17
      f18 f19 f20 f21 f22 f23 f24 f25 f26 f27 f28 f29 f30 f31 f32 f33 f34 f35
      f36 f37 f38 f39 f40) := c in
  mkConfig f0 f1 f2 f3 f4 f5 f6 f7 f8 f9 f10 f11 f12 f13 f14 f15 f16 v f18 f19
    f20 f21 f22 f23 f24 f25 f26 f27 f28 f29 f30 f31 f32 f33 f34 f35 f36 f37
    f38 f39 f40.

Definition set_PasswordlessTokenSigningKey (v : list byte) (c : Config) : Config :=
  let '(mkConfig f0 f1 f2 f3 f4 f5 f6 f7 f8 f9 f10 f11 f12 f13 f14 f15 f16 f17
      f18 f19 f20 f21 f22 f23 f24 f25 f26 f27 f28 f29 f30 f31 f32 f33 f34 f35
      f36 f37 f38 f39 f40) := c in
  mkConfig f0 f1 v f3 f4 f5 f6 f7 f8 f9 f10 f11 f12 f13 f14 f15 f16 f17 f18
    f19 f20 f21 f22 f23 f24 f25 f26 f27 f28 f29 f30 f31 f32 f33 f34 f35 f36
    f37 f38 f39 f40.

Definition set_DBEncryptionKey (v : list byte) (c : Config) : Config :=
  let '(mkConfig f0 f1 f2 f3 f4 f5 f6 f7 f8 f9 f10 f11 f12 f13 f14 f15 f16 f17
      f18 f19 f20 f21 f22 f23 f24 f25 f26 f27 f28 f29 f30 f31 f32 f33 f34 f35
      f36 f37 f38 f39 f40) := c in
  mkConfig f0 f1 f2 f3 f4 f5 f6 f7 f8 f9 f10 f11 f12 f13 f14 f15 f16 f17 v f19
    f20 f21 f22 f23 f24 f25 f26 f27 f28 f29 f30 f31 f32 f33 f34 f35 f36 f37
    f38 f39 f40.

Definition set_OAuthSigningKey (v : list byte) (c : Config) : Config :=
  let '(mkConfig f0 f1 f2 f3 f4 f5 f6 f7 f8 f9 f10 f11 f12 f13 f14 f15 f16 f17
      f18 f19 f20 f21 f22 f23 f24 f25 f26 f27 f28 f29 f30 f31 f32 f33 f34 f35
      f36 f37 f38 f39 f40) := c in
  mkConfig f0 f1 f2 f3 f4 f5 f6 f7 f8 f9 f10 f11 f12 f13 f14 f15 f16 f17 f18 v
    f20 f21 f22 f23 f24 f25 f26 f27 f28 f29 f30 f31 f32 f33 f34 f35 f36 f37
    f38 f39 f40.

Definition set_DatabaseURL (v : option url.URL) (c : Config) : Config :=
  let '(mkConfig f0 f1 f2 f3 f4 f5 f6 f7 f8 f9 f10 f11 f12 f13 f14 f15 f16 f17
      f18 f19 f20 f21 f22 f23 f24 f25 f26 f27 f28 f29 f30 f31 f32 f33 f34 f35
      f36 f37 f38 f39 f40) := c in
  mkConfig f0 f1 f2 f3 f4 f5 f6 f7 f8 f9 f10 f11 f12 v f14 f15 f16 f17 f18 f19
    f20 f21 f22 f23 f24 f25 f26 f27 f28 f29 f30 f31 f32 f33 f34 f35 f36 f37
    f38 f39 f40.

Definition set_IdentitySigningKey (v : option private_Key) (c : Config) : Config :=
  let '(mkConfig f0 f1 f2 f3 f4 f5 f6 f7 f8 f9 f10 f11 f12 f13 f14 f15 f16 f17
      f18 f19 f20 f21 f22 f23 f24 f25 f26 f27 f28 f29 f30 f31 f32 f33 f34 f35
      f36 f37 f38 f39 f40) := c in
  mkConfig f0 f1 f2 f3 f4 f5 f6 f7 f8 f9 f10 f11 f12 f13 f14 f15 f16 f17 f18
    f19 f20 v f22 f23 f24 f25 f26 f27 f28 f29 f30 f31 f32 f33 f34 f35 f36 f37
    f38 f39 f40.

Definition set_AuthNURL (v : option url.URL) (c : Config) : Config :=
  let '(mkConfig f0 f1 f2 f3 f4 f5 f6 f7 f8 f9 f10 f11 f12 f13 f14 f15 f16 f17
      f18 f19 f20 f21 f22 f23 f24 f25 f26 f27 f28 f29 f30 f31 f32 f33 f34 f35
      f36 f37 f38 f39 f40) := c in
  mkConfig f0 f1 f2 f3 f4 f5 f6 f7 f8 f9 f10 f11 f12 f13 f14 f15 f16 f17 f18
    f19 f20 f21 v f23 f24 f25 f26 f27 f28 f29 f30 f31 f32 f33 f34 f35 f36 f37
    f38 f39 f40.

Definition set_MountedPath (v : string) (c : Config) : Config :=
  let '(mkConfig f0 f1 f2 f3 f4 f5 f6 f7 f8 f9 f10 f11 f12 f13 f14 f15 f16 f17
      f18 f19 f20 f21 f22 f23 f24 f25 f26 f27 f28 f29 f30 f31 f32 f33 f34 f35
      f36 f37 f38 f39 f40) := c in
  mkConfig f0 f1 f2 f3 f4 f5 f6 f7 f8 f9 f10 f11 f12 f13 f14 f15 f16 f17 f18
    f19 f20 f21 f22 f23 v f25 f26 f27 f28 f29 f30 f31 f32 f33 f34 f35 f36 f37
    f38 f39 f40.

Definition set_ForceSSL (v : bool) (c : Config) : Config :=
  let '(mkConfig f0 f1 f2 f3 f4 f5 f6 f7 f8 f9 f10 f11 f12 f13 f14 f15 f16 f17
      f18 f19 f20 f21 f22 f23 f24 f25 f26 f27 f28 f29 f30 f31 f32 f33 f34 f35
      f36 f37 f38 f39 f40) := c in
  mkConfig f0 f1 f2 f3 f4 f5 f6 f7 f8 f9 f10 f11 f12 f13 f14 f15 f16 f17 f18
    f19 f20 f21 f22 v f24 f25 f26 f27 f28 f29 f30 f31 f32 f33 f34 f35 f36 f37
    f38 f39 f40.

Definition set_ServerPort (v : Z) (c : Config) : Config :=
  let '(mkConfig f0 f1 f2 f3 f4 f5 f6 f7 f8 f9 f10 f11 f12 f13 f14 f15 f16 f17
      f18 f19 f20 f21 f22 f23 f24 f25 f26 f27 f28 f29 f30 f31 f32 f33 f34 f35
      f36 f37 f38 f39 f40) := c in
  mkConfig f0 f1 f2 f3 f4 f5 f6 f7 f8 f9 f10 f11 f12 f13 f14 f15 f16 f17 f18
    f19 f20 f21 f22 f23 f24 f25 f26 f27 f28 f29 f30 f31 f32 f33 v f35 f36 f37
    f38 f39 f40.

Definition set_UsernameIsEmail (v : bool) (c : Config) : Config :=
  let '(mkConfig f0 f1 f2 f3 f4 f5 f6 f7 f8 f9 f10 f11 f12 f13 f14 f15 f16 f17
      f18 f19 f20 f21 f22 f23 f24 f25 f26 f27 f28 f29 f30 f31 f32 f33 f34 f35
      f36 f37 f38 f39 f40) := c in
  mkConfig f0 f1 f2 f3 f4 f5 f6 v f8 f9 f10 f11 f12 f13 f14 f15 f16 f17 f18
    f19 f20 f21 f22 f23 f24 f25 f26 f27 f28 f29 f30 f31 f32 f33 f34 f35 f36
    f37 f38 f39 f40.

Definition set_EnableSignup (v : bool) (c : Config) : Config :=
  let '(mkConfig f0 f1 f2 f3 f4 f5 f6 f7 f8 f9 f10 f11 f12 f13 f14 f15 f16 f17
      f18 f19 f20 f21 f22 f23 f24 f25 f26 f27 f28 f29 f30 f31 f32 f33 f34 f35
      f36 f37 f38 f39 f40) := c in
  mkConfig f0 f1 f2 f3 f4 f5 f6 f7 f8 f9 f10 f11 f12 f13 f14 f15 f16 f17 f18
    f19 f20 f21 f22 f23 f24 f25 f26 f27 v f29 f30 f31 f32 f33 f34 f35 f36 f37
    f38 f39 f40.

Definition set_Proxied (v : bool) (c : Config) : Config :=
  let '(mkConfig f0 f1 f2 f3 f4 f5 f6 f7 f8 f9 f10 f11 f12 f13 f14 f15 f16 f17
      f18 f19 f20 f21 f22 f23 f24 f25 f26 f27 f28 f29 f30 f31 f32 f33 f34 f35
      f36 f37 f38 f39 f40) := c in
  mkConfig f0 f1 f2 f3 f4 f5 f6 f7 f8 f9 f10 f11 f12 f13 f14 f15 f16 f17 f18
    f19 f20 f21 f22 f23 f24 f25 f26 f27 f28 f29 f30 f31 f32 f33 f34 f35 v f37
    f38 f39 f40.

(** A configurer works on the one [Config] it is given a pointer to: it
    returns its error together with the record as it has left it. *)
Definition configurer : Type := OS -> Config -> outcome (option error * Config).

(** The slice expression [b[:n]] on a slice whose capacity is its length. *)
Definition sliceTo (b : list byte) (n : Z) : outcome (list byte) :=
  if (0 <=? n) && (n <=? Z.of_nat (length b))
  then Returns (firstn (Z.to_nat n) b)
  else Panics "slice bounds out of range".

(** 20k iterations of PBKDF2 HMAC SHA-256 *)
Definition derive (base : list byte) (salt : string) : list byte :=
  pbkdf2.Key base (bytes_of_string salt) 20000 128 sha256.New.

(** The AUTHN_URL step. *)
Definition configureAuthNURL : configurer := fun os c =>
  let (val, err) := lookupURL os "AUTHN_URL" in
  match err with
  | None =>
      match val with
      | None => Returns (Some (ErrMissingEnvVar "AUTHN_URL"), c)
      | Some u =>
          let c := set_AuthNURL val c in
          let c := if String.eqb (url.Path u) ""
                   then set_MountedPath "/" c
                   else set_MountedPath (url.Path u) c in
          let c := set_ForceSSL (String.eqb (url.Scheme u) "https") c in
          Returns (err, c)
      end
  | Some _ => Returns (err, c)
  end.

(** The SECRET_KEY_BASE step.  ([[]byte(val)] is [b] in the first branch;
    what the step prints is not modelled.) *)
Definition configureSecretKeyBase : configurer := fun os c =>
  let (fileName, err) := requireEnv os "SECRET_KEY_BASE_FILE" in
  match err with
  | Some _ =>
      let (val, err) := requireEnv os "SECRET_KEY_BASE" in
      match err with
      | Some _ => Returns (err, c)
      | None =>
          let b := bytes_of_string val in
          let c := set_SessionSigningKey (derive b "session-key-salt") c in
          let c := set_ResetSigningKey
                     (derive b "password-reset-token-key-salt") c in
          let c := set_PasswordlessTokenSigningKey
                     (derive b "passwordless-token-key-salt") c in
          key ← sliceTo (derive b "db-encryption-key-salt") 32;
          let c := set_DBEncryptionKey key c in
          let c := set_OAuthSigningKey (derive b "oauth-key-salt") c in
          Returns (None, c)
      end
  | None =>
      let (val, err) := ReadFile os fileName in
      match err with
      | Some _ => Returns (err, c)
      | None =>
          let c := set_SessionSigningKey (derive val "session-key-salt") c in
          let c := set_ResetSigningKey
                     (derive val "password-reset-token-key-salt") c in
          let c := set_PasswordlessTokenSigningKey
                     (derive val "passwordless-token-key-salt") c in
          key ← sliceTo (derive val "db-encryption-key-salt") 32;
          let c := set_DBEncryptionKey key c in
          let c := set_OAuthSigningKey (derive val "oauth-key-salt") c in
          Returns (None, c)
      end
  end.

(** The DATABASE_URL step.  The inner [val] and [err] are new variables of
    the fallback block; the assignment after it uses the outer [val]. *)
Definition configureDatabaseURL : configurer := fun os c =>
  let (val, err) := lookupSecureURL os "DATABASE_URL_FILE" in
  match err with
  | Some _ =>
      let (val', err') := lookupURL os "DATABASE_URL" in
      match err' with
      | None =>
          match val' with
          | None => Returns (Some (ErrMissingEnvVar "DATABASE_URL"), c)
          | Some _ => Returns (None, set_DatabaseURL val' c)
          end
      | Some _ => Returns (None, set_DatabaseURL val c)
      end
  | None => Returns (None, set_DatabaseURL val c)
  end.

(** The boolean steps USERNAME_IS_EMAIL, ENABLE_SIGNUP and PROXIED. *)
Definition configureUsernameIsEmail : configurer := fun os c =>
  let (isEmail, err) := lookupBool os "USERNAME_IS_EMAIL" false in
  match err with
  | None => Returns (err, set_UsernameIsEmail isEmail c)
  | Some _ => Returns (err, c)
  end.

Definition configureEnableSignup : configurer := fun os c =>
  let (enableSignup, err) := lookupBool os "ENABLE_SIGNUP" true in
  match err with
  | None => Returns (err, set_EnableSignup enableSignup c)
  | Some _ => Returns (err, c)
  end.

Definition configureProxied : configurer := fun os c =>
  let (val, err) := lookupBool os "PROXIED" false in
  match err with
  | None => Returns (err, set_Proxied val c)
  | Some _ => Returns (err, c)
  end.

(** The RSA_PRIVATE_KEY step.  [block.Bytes] dereferences the pointer that
    [pem.Decode] returned. *)
Definition configureRSAPrivateKey : configurer := fun os c =>
  match LookupEnv os "RSA_PRIVATE_KEY" with
  | Some str =>
      let str := strings.ReplaceAll str "\n" (String LF "") in
      let (block, _) := pem_Decode (bytes_of_string str) in
      match block with
      | None => Panics "invalid memory address or nil pointer dereference"
      | Some b =>
          let (key, err) := x509_ParsePKCS1PrivateKey (pem.Bytes b) in
          match err with
          | Some _ => Returns (err, c)
          | None =>
              let (k, err) := private_NewKey key in
              let c := set_IdentitySigningKey k c in
              match err with
              | Some _ => Returns (err, c)
              | None => Returns (None, c)
              end
          end
      end
  | None => Returns (None, c)
  end.

(** The PORT step.  The error of [strconv.Atoi] is stored in [err], which
    the next statement assigns again. *)
Definition configurePort : configurer := fun os c =>
  match AuthNURL c with
  | None => Panics "invalid memory address or nil pointer dereference"
  | Some u =>
      let (defaultPort, err) := strconv.Atoi (url.Port u) in
      let (val, err) := lookupInt os "PORT" defaultPort in
      match err with
      | None => Returns (err, set_ServerPort val c)
      | Some _ => Returns (err, c)
      end
  end.

(** *** What the specification says the secret-base step does *)

(** The record [c] with the five key fields replaced and every other field
    as it is in [c]. *)
Definition withKeys (c : Config)
    (session reset passwordless db oauth : list byte) : Config :=
  {|
     AppPasswordlessTokenURL := AppPasswordlessTokenURL c;
     PasswordlessTokenTTL := PasswordlessTokenTTL c;
     PasswordlessTokenSigningKey := passwordless;
     AppPasswordResetURL := AppPasswordResetURL c;
     AppPasswordChangedURL := AppPasswordChangedURL c;
     ApplicationDomains := ApplicationDomains c;
     BcryptCost := BcryptCost c;
     UsernameIsEmail := UsernameIsEmail c;
     UsernameMinLength := UsernameMinLength c;
     UsernameDomains := UsernameDomains c;
     PasswordMinComplexity := PasswordMinComplexity c;
     RefreshTokenTTL := RefreshTokenTTL c;
     RedisURL := RedisURL c;
     DatabaseURL := DatabaseURL c;
     SessionCookieName := SessionCookieName c;
     OAuthCookieName := OAuthCookieName c;
     SessionSigningKey := session;
     ResetSigningKey := reset;
     DBEncryptionKey := db;
     OAuthSigningKey := oauth;
     ResetTokenTTL := ResetTokenTTL c;
     IdentitySigningKey := IdentitySigningKey c;
     AuthNURL := AuthNURL c;
     ForceSSL := ForceSSL c;
     MountedPath := MountedPath c;
     AccessTokenTTL := AccessTokenTTL c;
     AuthUsername := AuthUsername c;
     AuthPassword := AuthPassword c;
     EnableSignup := EnableSignup c;
     StatisticsTimeZone := StatisticsTimeZone c;
     DailyActivesRetention := DailyActivesRetention c;
     WeeklyActivesRetention := WeeklyActivesRetention c;
     ErrorReporterCredentials := ErrorReporterCredentials c;
     ErrorReporterType := ErrorReporterType c;
     ServerPort := ServerPort c;
     PublicPort := PublicPort c;
     Proxied := Proxied c;
     GoogleOauthCredentials := GoogleOauthCredentials c;
     GitHubOauthCredentials := GitHubOauthCredentials c;
     FacebookOauthCredentials := FacebookOauthCredentials c;
     DiscordOauthCredentials := DiscordOauthCredentials c
  |}.

(** The keys that the step derives from a base. *)
Definition derivedKeys (base : list byte) (c : Config) : Config :=
  withKeys c
    (derive base "session-key-salt")
    (derive base "password-reset-token-key-salt")
    (derive base "passwordless-token-key-salt")
    (firstn 32 (derive base "db-encryption-key-salt"))
    (derive base "oauth-key-salt").

(** The base the step works from: the contents of the file that
    SECRET_KEY_BASE_FILE names when that variable is set, and the value of
    SECRET_KEY_BASE only when it is not set. *)
Definition obtainedBase (os : OS) : option (list byte) :=
  match LookupEnv os "SECRET_KEY_BASE_FILE" with
  | Some fileName => files os !! fileName
  | None => bytes_of_string <$> LookupEnv os "SECRET_KEY_BASE"
  end.

(** The two sources the specification speaks of, each on its own. *)
Definition fileSecret (os : OS) : option (list byte) :=
  match LookupEnv os "SECRET_KEY_BASE_FILE" with
  | Some fileName => files os !! fileName
  | None => None
  end.

Definition directSecret (os : OS) : option (list byte) :=
  bytes_of_string <$> LookupEnv os "SECRET_KEY_BASE".

Definition keyLabels : list string :=
  ["session-key-salt"; "password-reset-token-key-salt";
   "passwordless-token-key-salt"; "db-encryption-key-salt"; "oauth-key-salt"].

Definition returnsError {A : Type} (r : outcome (option error * A)) : Prop :=
  exists e a, r = Returns (Some e, a).

End App.

(** ** More of the Go library, for the other configurers *)

(** Arithmetic on [int64] wraps around. *)
Definition wrap64 (z : Z) : Z := (z + 2 ^ 63) mod 2 ^ 64 - 2 ^ 63.

(** [time.Second], in nanoseconds, and [time.Duration(n) * time.Second]. *)
Definition Second : Z := 1000000000.
Definition seconds (n : Z) : Z := wrap64 (n * Second).

(** An integer in decimal, as the verb [%v] prints an [int]. *)
Definition formatInt (z : Z) : string := NilZero.string_of_int (Z.to_int z).

(** The method [String] of a pointer to a [big.Int], which may be nil. *)
Definition bigIntString (i : option Z) : string :=
  match i with
  | Some n => formatInt n
  | None => "<nil>"
  end.

(** The number that a run of decimal digits denotes, most significant
    digit first, on top of [acc]. *)
Fixpoint uintValue (acc : Z) (d : Decimal.uint) : Z :=
  match d with
  | Nil => acc
  | D0 d => uintValue (acc * 10 + 0) d
  | D1 d => uintValue (acc * 10 + 1) d
  | D2 d => uintValue (acc * 10 + 2) d
  | D3 d => uintValue (acc * 10 + 3) d
  | D4 d => uintValue (acc * 10 + 4) d
  | D5 d => uintValue (acc * 10 + 5) d
  | D6 d => uintValue (acc * 10 + 6) d
  | D7 d => uintValue (acc * 10 + 7) d
  | D8 d => uintValue (acc * 10 + 8) d
  | D9 d => uintValue (acc * 10 + 9) d
  end.



(** [strings.Split(s, sep)] for a separator of one character: the pieces
    between the separators, one more than there are separators. *)
Fixpoint Split (s : string) (sep : ascii) : list string :=
  match s with
  | EmptyString => [EmptyString]
  | String ch rest =>
      if Ascii.eqb ch sep then EmptyString :: Split rest sep
      else
        match Split rest sep with
        | piece :: pieces => String ch piece :: pieces
        | [] => [String ch EmptyString]
        end
  end.

(** [strings.Join(pieces, sep)] *)
Fixpoint Join (pieces : list string) (sep : ascii) : string :=
  match pieces with
  | [] => EmptyString
  | [piece] => piece
  | piece :: rest => piece +:+ String sep (Join rest sep)
  end.

(** How often [sep] occurs in [s]. *)
Fixpoint Count (s : string) (sep : ascii) : nat :=
  match s with
  | EmptyString => O
  | String ch rest => ((if Ascii.eqb ch sep then 1 else 0) + Count rest sep)%nat
  end.

(** The two characters that a raw string literal with a backslash and an
    [n] holds: the escape that the RSA_PRIVATE_KEY step replaces. *)
Definition escapedLF : string := "\n".

(** The environment with one more variable set, as after [os.Setenv]. *)
Definition Setenv (os : OS) (name val : string) : OS :=
  mkOS (<[ name := val ]> (environ os)) (files os).

(** [rand.Reader]: what each read will give (a number, or no number when the
    read fails) and how many reads were made. *)
Record Reader : Type := mkReader {
  reads : nat -> option Z;
  position : nat
}.

(** [rand.Int(rand.Reader, max)]: the next number of the reader. *)
Definition rand_Int (r : Reader) (max : Z) : option Z * option error * Reader :=
  let next := mkReader (reads r) (S (position r)) in
  match reads r (position r) with
  | Some n => (Some n, None, next)
  | None => (None, Some (LibError "rand" "read"), next)
  end.

(** What the other configurers take from packages outside [src/]:
    [route.ParseDomain], [time.LoadLocation], [oauth.NewCredentials] and the
    two constants of [ops.ErrorReporterType]. *)
Class Packages `{Externals} : Type := mkPackages {
  route_ParseDomain : string -> route_Domain;
  time_LoadLocation : string -> option time_Location * option error;
  oauth_NewCredentials : string -> option oauth_Credentials * option error;
  ops_Sentry : ops_ErrorReporterType;
  ops_Airbrake : ops_ErrorReporterType
}.

(** ** package app, the other configurers *)

Section OtherConfigurers.
Context `{Packages}.

Definition set_AppPasswordlessTokenURL (v : option url.URL) (c : Config) : Config :=
  let '(mkConfig f0 f1 f2 f3 f4 f5 f6 f7 f8 f9 f10 f11 f12 f13 f14 f15 f16 f17
      f18 f19 f20 f21 f22 f23 f24 f25 f26 f27 f28 f29 f30 f31 f32 f33 f34 f35
      f36 f37 f38 f39 f40) := c in
  mkConfig v f1 f2 f3 f4 f5 f6 f7 f8 f9 f10 f11 f12 f13 f14 f15 f16 f17 f18
    f19 f20 f21 f22 f23 f24 f25 f26 f27 f28 f29 f30 f31 f32 f33 f34 f35 f36
    f37 f38 f39 f40.

Definition set_PasswordlessTokenTTL (v : Z) (c : Config) : Config :=
  let '(mkConfig f0 f1 f2 f3 f4 f5 f6 f7 f8 f9 f10 f11 f12 f13 f14 f15 f16 f17
      f18 f19 f20 f21 f22 f23 f24 f25 f26 f27 f28 f29 f30 f31 f32 f33 f34 f35
      f36 f37 f38 f39 f40) := c in
  mkConfig f0 v f2 f3 f4 f5 f6 f7 f8 f9 f10 f11 f12 f13 f14 f15 f16 f17 f18
    f19 f20 f21 f22 f23 f24 f25 f26 f27 f28 f29 f30 f31 f32 f33 f34 f35 f36
    f37 f38 f39 f40.

Definition set_AppPasswordResetURL (v : option url.URL) (c : Config) : Config :=
  let '(mkConfig f0 f1 f2 f3 f4 f5 f6 f7 f8 f9 f10 f11 f12 f13 f14 f15 f16 f17
      f18 f19 f20 f21 f22 f23 f24 f25 f26 f27 f28 f29 f30 f31 f32 f33 f34 f35
      f36 f37 f38 f39 f40) := c in
  mkConfig f0 f1 f2 v f4 f5 f6 f7 f8 f9 f10 f11 f12 f13 f14 f15 f16 f17 f18
    f19 f20 f21 f22 f23 f24 f25 f26 f27 f28 f29 f30 f31 f32 f33 f34 f35 f36
    f37 f38 f39 f40.

Definition set_AppPasswordChangedURL (v : option url.URL) (c : Config) : Config :=
  let '(mkConfig f0 f1 f2 f3 f4 f5 f6 f7 f8 f9 f10 f11 f12 f13 f14 f15 f16 f17
      f18 f19 f20 f21 f22 f23 f24 f25 f26 f27 f28 f29 f30 f31 f32 f33 f34 f35
      f36 f37 f38 f39 f40) := c in
  mkConfig f0 f1 f2 f3 v f5 f6 f7 f8 f9 f10 f11 f12 f13 f14 f15 f16 f17 f18
    f19 f20 f21 f22 f23 f24 f25 f26 f27 f28 f29 f30 f31 f32 f33 f34 f35 f36
    f37 f38 f39 f40.

Definition set_ApplicationDomains (v : list route_Domain) (c : Config) : Config :=
  let '(mkConfig f0 f1 f2 f3 f4 f5 f6 f7 f8 f9 f10 f11 f12 f13 f14 f15 f16 f17
      f18 f19 f20 f21 f22 f23 f24 f25 f26 f27 f28 f29 f30 f31 f32 f33 f34 f35
      f36 f37 f38 f39 f40) := c in
  mkConfig f0 f1 f2 f3 f4 v f6 f7 f8 f9 f10 f11 f12 f13 f14 f15 f16 f17 f18
    f19 f20 f21 f22 f23 f24 f25 f26 f27 f28 f29 f30 f31 f32 f33 f34 f35 f36
    f37 f38 f39 f40.

Definition set_BcryptCost (v : Z) (c : Config) : Config :=
  let '(mkConfig f0 f1 f2 f3 f4 f5 f6 f7 f8 f9 f10 f11 f12 f13 f14 f15 f16 f17
      f18 f19 f20 f21 f22 f23 f24 f25 f26 f27 f28 f29 f30 f31 f32 f33 f34 f35
      f36 f37 f38 f39 f40) := c in
  mkConfig f0 f1 f2 f3 f4 f5 v f7 f8 f9 f10 f11 f12 f13 f14 f15 f16 f17 f18
    f19 f20 f21 f22 f23 f24 f25 f26 f27 f28 f29 f30 f31 f32 f33 f34 f35 f36
    f37 f38 f39 f40.

Definition set_UsernameDomains (v : list string) (c : Config) : Config :=
  let '(mkConfig f0 f1 f2 f3 f4 f5 f6 f7 f8 f9 f10 f11 f12 f13 f14 f15 f16 f17
      f18 f19 f20 f21 f22 f23 f24 f25 f26 f27 f28 f29 f30 f31 f32 f33 f34 f35
      f36 f37 f38 f39 f40) := c in
  mkConfig f0 f1 f2 f3 f4 f5 f6 f7 f8 v f10 f11 f12 f13 f14 f15 f16 f17 f18
    f19 f20 f21 f22 f23 f24 f25 f26 f27 f28 f29 f30 f31 f32 f33 f34 f35 f36
    f37 f38 f39 f40.

Definition set_PasswordMinComplexity (v : Z) (c : Config) : Config :=
  let '(mkConfig f0 f1 f2 f3 f4 f5 f6 f7 f8 f9 f10 f11 f12 f13 f14 f15 f16 f17
      f18 f19 f20 f21 f22 f23 f24 f25 f26 f27 f28 f29 f30 f31 f32 f33 f34 f35
      f36 f37 f38 f39 f40) := c in
  mkConfig f0 f1 f2 f3 f4 f5 f6 f7 f8 f9 v f11 f12 f13 f14 f15 f16 f17 f18 f19
    f20 f21 f22 f23 f24 f25 f26 f27 f28 f29 f30 f31 f32 f33 f34 f35 f36 f37
    f38 f39 f40.

Definition set_RefreshTokenTTL (v : Z) (c : Config) : Config :=
  let '(mkConfig f0 f1 f2 f3 f4 f5 f6 f7 f8 f9 f10 f11 f12 f13 f14 f15 f16 f17
      f18 f19 f20 f21 f22 f23 f24 f25 f26 f27 f28 f29 f30 f31 f32 f33 f34 f35
      f36 f37 f38 f39 f40) := c in
  mkConfig f0 f1 f2 f3 f4 f5 f6 f7 f8 f9 f10 v f12 f13 f14 f15 f16 f17 f18 f19
    f20 f21 f22 f23 f24 f25 f26 f27 f28 f29 f30 f31 f32 f33 f34 f35 f36 f37
    f38 f39 f40.

Definition set_RedisURL (v : option url.URL) (c : Config) : Config :=
  let '(mkConfig f0 f1 f2 f3 f4 f5 f6 f7 f8 f9 f10 f11 f12 f13 f14 f15 f16 f17
      f18 f19 f20 f21 f22 f23 f24 f25 f26 f27 f28 f29 f30 f31 f32 f33 f34 f35
      f36 f37 f38 f39 f40) := c in
  mkConfig f0 f1 f2 f3 f4 f5 f6 f7 f8 f9 f10 f11 v f13 f14 f15 f16 f17 f18 f19
    f20 f21 f22 f23 f24 f25 f26 f27 f28 f29 f30 f31 f32 f33 f34 f35 f36 f37
    f38 f39 f40.

Definition set_ResetTokenTTL (v : Z) (c : Config) : Config :=
  let '(mkConfig f0 f1 f2 f3 f4 f5 f6 f7 f8 f9 f10 f11 f12 f13 f14 f15 f16 f17
      f18 f19 f20 f21 f22 f23 f24 f25 f26 f27 f28 f29 f30 f31 f32 f33 f34 f35
      f36 f37 f38 f39 f40) := c in
  mkConfig f0 f1 f2 f3 f4 f5 f6 f7 f8 f9 f10 f11 f12 f13 f14 f15 f16 f17 f18
    f19 v f21 f22 f23 f24 f25 f26 f27 f28 f29 f30 f31 f32 f33 f34 f35 f36 f37
    f38 f39 f40.

Definition set_AccessTokenTTL (v : Z) (c : Config) : Config :=
  let '(mkConfig f0 f1 f2 f3 f4 f5 f6 f7 f8 f9 f10 f11 f12 f13 f14 f15 f16 f17
      f18 f19 f20 f21 f22 f23 f24 f25 f26 f27 f28 f29 f30 f31 f32 f33 f34 f35
      f36 f37 f38 f39 f40) := c in
  mkConfig f0 f1 f2 f3 f4 f5 f6 f7 f8 f9 f10 f11 f12 f13 f14 f15 f16 f17 f18
    f19 f20 f21 f22 f23 f24 v f26 f27 f28 f29 f30 f31 f32 f33 f34 f35 f36 f37
    f38 f39 f40.

Definition set_AuthUsername (v : string) (c : Config) : Config :=
  let '(mkConfig f0 f1 f2 f3 f4 f5 f6 f7 f8 f9 f10 f11 f12 f13 f14 f15 f16 f17
      f18 f19 f20 f21 f22 f23 f24 f25 f26 f27 f28 f29 f30 f31 f32 f33 f34 f35
      f36 f37 f38 f39 f40) := c in
  mkConfig f0 f1 f2 f3 f4 f5 f6 f7 f8 f9 f10 f11 f12 f13 f14 f15 f16 f17 f18
    f19 f20 f21 f22 f23 f24 f25 v f27 f28 f29 f30 f31 f32 f33 f34 f35 f36 f37
    f38 f39 f40.

Definition set_AuthPassword (v : string) (c : Config) : Config :=
  let '(mkConfig f0 f1 f2 f3 f4 f5 f6 f7 f8 f9 f10 f11 f12 f13 f14 f15 f16 f17
      f18 f19 f20 f21 f22 f23 f24 f25 f26 f27 f28 f29 f30 f31 f32 f33 f34 f35
      f36 f37 f38 f39 f40) := c in
  mkConfig f0 f1 f2 f3 f4 f5 f6 f7 f8 f9 f10 f11 f12 f13 f14 f15 f16 f17 f18
    f19 f20 f21 f22 f23 f24 f25 f26 v f28 f29 f30 f31 f32 f33 f34 f35 f36 f37
    f38 f39 f40.

Definition set_StatisticsTimeZone (v : option time_Location) (c : Config) : Config :=
  let '(mkConfig f0 f1 f2 f3 f4 f5 f6 f7 f8 f9 f10 f11 f12 f13 f14 f15 f16 f17
      f18 f19 f20 f21 f22 f23 f24 f25 f26 f27 f28 f29 f30 f31 f32 f33 f34 f35
      f36 f37 f38 f39 f40) := c in
  mkConfig f0 f1 f2 f3 f4 f5 f6 f7 f8 f9 f10 f11 f12 f13 f14 f15 f16 f17 f18
    f19 f20 f21 f22 f23 f24 f25 f26 f27 f28 v f30 f31 f32 f33 f34 f35 f36 f37
    f38 f39 f40.

Definition set_DailyActivesRetention (v : Z) (c : Config) : Config :=
  let '(mkConfig f0 f1 f2 f3 f4 f5 f6 f7 f8 f9 f10 f11 f12 f13 f14 f15 f16 f17
      f18 f19 f20 f21 f22 f23 f24 f25 f26 f27 f28 f29 f30 f31 f32 f33 f34 f35
      f36 f37 f38 f39 f40) := c in
  mkConfig f0 f1 f2 f3 f4 f5 f6 f7 f8 f9 f10 f11 f12 f13 f14 f15 f16 f17 f18
    f19 f20 f21 f22 f23 f24 f25 f26 f27 f28 f29 v f31 f32 f33 f34 f35 f36 f37
    f38 f39 f40.

Definition set_WeeklyActivesRetention (v : Z) (c : Config) : Config :=
  let '(mkConfig f0 f1 f2 f3 f4 f5 f6 f7 f8 f9 f10 f11 f12 f13 f14 f15 f16 f17
      f18 f19 f20 f21 f22 f23 f24 f25 f26 f27 f28 f29 f30 f31 f32 f33 f34 f35
      f36 f37 f38 f39 f40) := c in
  mkConfig f0 f1 f2 f3 f4 f5 f6 f7 f8 f9 f10 f11 f12 f13 f14 f15 f16 f17 f18
    f19 f20 f21 f22 f23 f24 f25 f26 f27 f28 f29 f30 v f32 f33 f34 f35 f36 f37
    f38 f39 f40.

Definition set_ErrorReporterCredentials (v : string) (c : Config) : Config :=
  let '(mkConfig f0 f1 f2 f3 f4 f5 f6 f7 f8 f9 f10 f11 f12 f13 f14 f15 f16 f17
      f18 f19 f20 f21 f22 f23 f24 f25 f26 f27 f28 f29 f30 f31 f32 f33 f34 f35
      f36 f37 f38 f39 f40) := c in
  mkConfig f0 f1 f2 f3 f4 f5 f6 f7 f8 f9 f10 f11 f12 f13 f14 f15 f16 f17 f18
    f19 f20 f21 f22 f23 f24 f25 f26 f27 f28 f29 f30 f31 v f33 f34 f35 f36 f37
    f38 f39 f40.

Definition set_ErrorReporterType (v : ops_ErrorReporterType) (c : Config) : Config :=
  let '(mkConfig f0 f1 f2 f3 f4 f5 f6 f7 f8 f9 f10 f11 f12 f13 f14 f15 f16 f17
      f18 f19 f20 f21 f22 f23 f24 f25 f26 f27 f28 f29 f30 f31 f32 f33 f34 f35
      f36 f37 f38 f39 f40) := c in
  mkConfig f0 f1 f2 f3 f4 f5 f6 f7 f8 f9 f10 f11 f12 f13 f14 f15 f16 f17 f18
    f19 f20 f21 f22 f23 f24 f25 f26 f27 f28 f29 f30 f31 f32 v f34 f35 f36 f37
    f38 f39 f40.

Definition set_PublicPort (v : Z) (c : Config) : Config :=
  let '(mkConfig f0 f1 f2 f3 f4 f5 f6 f7 f8 f9 f10 f11 f12 f13 f14 f15 f16 f17
      f18 f19 f20 f21 f22 f23 f24 f25 f26 f27 f28 f29 f30 f31 f32 f33 f34 f35
      f36 f37 f38 f39 f40) := c in
  mkConfig f0 f1 f2 f3 f4 f5 f6 f7 f8 f9 f10 f11 f12 f13 f14 f15 f16 f17 f18
    f19 f20 f21 f22 f23 f24 f25 f26 f27 f28 f29 f30 f31 f32 f33 f34 v f36 f37
    f38 f39 f40.

Definition set_GoogleOauthCredentials (v : option oauth_Credentials) (c : Config) : Config :=
  let '(mkConfig f0 f1 f2 f3 f4 f5 f6 f7 f8 f9 f10 f11 f12 f13 f14 f15 f16 f17
      f18 f19 f20 f21 f22 f23 f24 f25 f26 f27 f28 f29 f30 f31 f32 f33 f34 f35
      f36 f37 f38 f39 f40) := c in
  mkConfig f0 f1 f2 f3 f4 f5 f6 f7 f8 f9 f10 f11 f12 f13 f14 f15 f16 f17 f18
    f19 f20 f21 f22 f23 f24 f25 f26 f27 f28 f29 f30 f31 f32 f33 f34 f35 f36 v
    f38 f39 f40.

Definition set_GitHubOauthCredentials (v : option oauth_Credentials) (c : Config) : Config :=
  let '(mkConfig f0 f1 f2 f3 f4 f5 f6 f7 f8 f9 f10 f11 f12 f13 f14 f15 f16 f17
      f18 f19 f20 f21 f22 f23 f24 f25 f26 f27 f28 f29 f30 f31 f32 f33 f34 f35
      f36 f37 f38 f39 f40) := c in
  mkConfig f0 f1 f2 f3 f4 f5 f6 f7 f8 f9 f10 f11 f12 f13 f14 f15 f16 f17 f18
    f19 f20 f21 f22 f23 f24 f25 f26 f27 f28 f29 f30 f31 f32 f33 f34 f35 f36
    f37 v f39 f40.

Definition set_FacebookOauthCredentials (v : option oauth_Credentials) (c : Config) : Config :=
  let '(mkConfig f0 f1 f2 f3 f4 f5 f6 f7 f8 f9 f10 f11 f12 f13 f14 f15 f16 f17
      f18 f19 f20 f21 f22 f23 f24 f25 f26 f27 f28 f29 f30 f31 f32 f33 f34 f35
      f36 f37 f38 f39 f40) := c in
  mkConfig f0 f1 f2 f3 f4 f5 f6 f7 f8 f9 f10 f11 f12 f13 f14 f15 f16 f17 f18
    f19 f20 f21 f22 f23 f24 f25 f26 f27 f28 f29 f30 f31 f32 f33 f34 f35 f36
    f37 f38 v f40.

Definition set_DiscordOauthCredentials (v : option oauth_Credentials) (c : Config) : Config :=
  let '(mkConfig f0 f1 f2 f3 f4 f5 f6 f7 f8 f9 f10 f11 f12 f13 f14 f15 f16 f17
      f18 f19 f20 f21 f22 f23 f24 f25 f26 f27 f28 f29 f30 f31 f32 f33 f34 f35
      f36 f37 f38 f39 f40) := c in
  mkConfig f0 f1 f2 f3 f4 f5 f6 f7 f8 f9 f10 f11 f12 f13 f14 f15 f16 f17 f18
    f19 f20 f21 f22 f23 f24 f25 f26 f27 f28 f29 f30 f31 f32 f33 f34 f35 f36
    f37 f38 f39 v.

(** The APP_DOMAINS step: the loop appends one parsed domain per piece. *)
Definition configureAppDomains : configurer := fun os c =>
  let (val, err) := requireEnv os "APP_DOMAINS" in
  match err with
  | None =>
      let c := set_ApplicationDomains [] c in
      let c :=
        fold_left
          (fun c domain =>
             set_ApplicationDomains
               (ApplicationDomains c ++ [route_ParseDomain domain]) c)
          (Split val ",") c in
      Returns (err, c)
  | Some _ => Returns (err, c)
  end.

(** The BCRYPT_COST step. *)
Definition configureBcryptCost : configurer := fun os c =>
  let (cost, err) := lookupInt os "BCRYPT_COST" 11 in
  match err with
  | None =>
      if cost <? 10
      then Returns (Some (Errorf ("BCRYPT_COST is too low: " +:+ formatInt cost)),
                    c)
      else Returns (err, set_BcryptCost cost c)
  | Some _ => Returns (err, c)
  end.

(** The PASSWORD_POLICY_SCORE step. *)
Definition configurePasswordPolicyScore : configurer := fun os c =>
  let (val, err) := lookupInt os "PASSWORD_POLICY_SCORE" 2 in
  match err with
  | None => Returns (err, set_PasswordMinComplexity val c)
  | Some _ => Returns (err, c)
  end.

(** The REDIS_URL step. *)
Definition configureRedisURL : configurer := fun os c =>
  let (val, err) := lookupURL os "REDIS_URL" in
  match err with
  | None => Returns (err, set_RedisURL val c)
  | Some _ => Returns (err, c)
  end.

(** The EMAIL_USERNAME_DOMAINS step. *)
Definition configureEmailUsernameDomains : configurer := fun os c =>
  match LookupEnv os "EMAIL_USERNAME_DOMAINS" with
  | Some val => Returns (None, set_UsernameDomains (Split val ",") c)
  | None => Returns (None, c)
  end.

(** The four steps for the lifetimes of tokens, in seconds. *)
Definition configureRefreshTokenTTL : configurer := fun os c =>
  let (val, err) := lookupInt os "REFRESH_TOKEN_TTL" (86400 * 30) in
  match err with
  | None => Returns (err, set_RefreshTokenTTL (seconds val) c)
  | Some _ => Returns (err, c)
  end.

Definition configurePasswordResetTokenTTL : configurer := fun os c =>
  let (val, err) := lookupInt os "PASSWORD_RESET_TOKEN_TTL" 1800 in
  match err with
  | None => Returns (err, set_ResetTokenTTL (seconds val) c)
  | Some _ => Returns (err, c)
  end.

Definition configurePasswordlessTokenTTL : configurer := fun os c =>
  let (val, err) := lookupInt os "PASSWORDLESS_TOKEN_TTL" 1800 in
  match err with
  | None => Returns (err, set_PasswordlessTokenTTL (seconds val) c)
  | Some _ => Returns (err, c)
  end.

Definition configureAccessTokenTTL : configurer := fun os c =>
  let (val, err) := lookupInt os "ACCESS_TOKEN_TTL" 3600 in
  match err with
  | None => Returns (err, set_AccessTokenTTL (seconds val) c)
  | Some _ => Returns (err, c)
  end.

(** The HTTP_AUTH_USERNAME and HTTP_AUTH_PASSWORD step, which also reads
    [rand.Reader]: it returns the reader as it has left it. *)
Definition configureHTTPAuth (os : OS) (c : Config) (r : Reader)
  : outcome (option error * Config * Reader) :=
  let password (c : Config) (r : Reader) :=
    match LookupEnv os "HTTP_AUTH_PASSWORD" with
    | Some val => Returns (None, set_AuthPassword val c, r)
    | None =>
        let '(i, err, r) := rand_Int r 99999999 in
        match err with
        | Some _ => Returns (err, c, r)
        | None => Returns (None, set_AuthPassword (bigIntString i) c, r)
        end
    end in
  match LookupEnv os "HTTP_AUTH_USERNAME" with
  | Some val => password (set_AuthUsername val c) r
  | None =>
      let '(i, err, r) := rand_Int r 99999999 in
      match err with
      | Some _ => Returns (err, c, r)
      | None => password (set_AuthUsername (bigIntString i) c) r
      end
  end.

(** The three steps for the endpoints that are notified. *)
Definition configureAppPasswordChangedURL : configurer := fun os c =>
  let (val, err) := lookupURL os "APP_PASSWORD_CHANGED_URL" in
  match err, val with
  | None, Some _ => Returns (err, set_AppPasswordChangedURL val c)
  | _, _ => Returns (err, c)
  end.

Definition configureAppPasswordResetURL : configurer := fun os c =>
  let (val, err) := lookupURL os "APP_PASSWORD_RESET_URL" in
  match err, val with
  | None, Some _ => Returns (err, set_AppPasswordResetURL val c)
  | _, _ => Returns (err, c)
  end.

Definition configureAppPasswordlessTokenURL : configurer := fun os c =>
  let (val, err) := lookupURL os "APP_PASSWORDLESS_TOKEN_URL" in
  match err, val with
  | None, Some _ => Returns (err, set_AppPasswordlessTokenURL val c)
  | _, _ => Returns (err, c)
  end.

(** The TIME_ZONE step. *)
Definition configureTimeZone : configurer := fun os c =>
  let name :=
    match LookupEnv os "TIME_ZONE" with
    | Some name => name
    | None => "UTC"
    end in
  let (tz, err) := time_LoadLocation name in
  match err with
  | Some _ => Returns (err, c)
  | None => Returns (None, set_StatisticsTimeZone tz c)
  end.

(** The two retention steps. *)
Definition configureDailyActivesRetention : configurer := fun os c =>
  let (val, err) := lookupInt os "DAILY_ACTIVES_RETENTION" 365 in
  match err with
  | None => Returns (err, set_DailyActivesRetention val c)
  | Some _ => Returns (err, c)
  end.

Definition configureWeeklyActivesRetention : configurer := fun os c =>
  let (val, err) := lookupInt os "WEEKLY_ACTIVES_RETENTION" 104 in
  match err with
  | None => Returns (err, set_WeeklyActivesRetention val c)
  | Some _ => Returns (err, c)
  end.

(** The SENTRY_DSN and AIRBRAKE_CREDENTIALS steps. *)
Definition configureSentryDSN : configurer := fun os c =>
  match LookupEnv os "SENTRY_DSN" with
  | Some val =>
      let c := set_ErrorReporterCredentials val c in
      let c := set_ErrorReporterType ops_Sentry c in
      Returns (None, c)
  | None => Returns (None, c)
  end.

Definition configureAirbrakeCredentials : configurer := fun os c =>
  match LookupEnv os "AIRBRAKE_CREDENTIALS" with
  | Some val =>
      let c := set_ErrorReporterCredentials val c in
      let c := set_ErrorReporterType ops_Airbrake c in
      Returns (None, c)
  | None => Returns (None, c)
  end.

(** The PUBLIC_PORT step. *)
Definition configurePublicPort : configurer := fun os c =>
  let (val, err) := lookupInt os "PUBLIC_PORT" 0 in
  match err with
  | None => Returns (err, set_PublicPort val c)
  | Some _ => Returns (err, c)
  end.

(** The four steps for the credentials of the OAuth providers. *)
Definition configureGoogleOauth : configurer := fun os c =>
  match LookupEnv os "GOOGLE_OAUTH_CREDENTIALS" with
  | Some val =>
      let (credentials, err) := oauth_NewCredentials val in
      match err with
      | None => Returns (err, set_GoogleOauthCredentials credentials c)
      | Some _ => Returns (err, c)
      end
  | None => Returns (None, c)
  end.

Definition configureGitHubOauth : configurer := fun os c =>
  match LookupEnv os "GITHUB_OAUTH_CREDENTIALS" with
  | Some val =>
      let (credentials, err) := oauth_NewCredentials val in
      match err with
      | None => Returns (err, set_GitHubOauthCredentials credentials c)
      | Some _ => Returns (err, c)
      end
  | None => Returns (None, c)
  end.

Definition configureFacebookOauth : configurer := fun os c =>
  match LookupEnv os "FACEBOOK_OAUTH_CREDENTIALS" with
  | Some val =>
      let (credentials, err) := oauth_NewCredentials val in
      match err with
      | None => Returns (err, set_FacebookOauthCredentials credentials c)
      | Some _ => Returns (err, c)
      end
  | None => Returns (None, c)
  end.

Definition configureDiscordOauth : configurer := fun os c =>
  match LookupEnv os "DISCORD_OAUTH_CREDENTIALS" with
  | Some val =>
      let (credentials, err) := oauth_NewCredentials val in
      match err with
      | None => Returns (err, set_DiscordOauthCredentials credentials c)
      | Some _ => Returns (err, c)
      end
  | None => Returns (None, c)
  end.

End OtherConfigurers.

(** A step that, whenever it returns an error, has left the record as it
    was given it. *)
Definition leavesRecordOnError `{Externals} (step : configurer) : Prop :=
  forall os c e c', step os c = Returns (Some e, c') -> c' = c.

(** ** package services, file account_archiver.go *)

(** The two stores are external collaborators.  [AccountStore] and
    [RefreshTokenStore] are the states behind the interface values
    [data.AccountStore] and [data.RefreshTokenStore]; [Archive] is the method
    of the account store; [LogoutAccount] is the function of package
    [services] that revokes every refresh token of an account, which is given
    the token store only; [ErrNotFound] is the message code of that name. *)
Class Stores : Type := mkStores {
  AccountStore : Type;
  RefreshTokenStore : Type;
  Archive : AccountStore -> Z -> bool * option error * AccountStore;
  LogoutAccount : RefreshTokenStore -> Z -> option error * RefreshTokenStore;
  ErrNotFound : string
}.

(** A call that reaches one of the stores. *)
Inductive StoreCall : Type :=
| CallArchive (accountID : Z)          (* on the account store *)
| CallLogoutAccount (accountID : Z).   (* on the refresh-token store *)

Definition onTokenStore (call : StoreCall) : bool :=
  match call with
  | CallArchive _ => false
  | CallLogoutAccount _ => true
  end.

Section Services.
Context `{Stores}.

(** Both stores, and the calls made on them so far, oldest first. *)
Record World : Type := mkWorld {
  accounts : AccountStore;
  tokens : RefreshTokenStore;
  calls : list StoreCall
}.

Definition callArchive (accountID : Z) (w : World)
  : bool * option error * World :=
  let '(affected, err, accounts') := Archive (accounts w) accountID in
  (affected, err,
   mkWorld accounts' (tokens w) (calls w ++ [CallArchive accountID])).

Definition callLogoutAccount (accountID : Z) (w : World)
  : option error * World :=
  let (err, tokens') := LogoutAccount (tokens w) accountID in
  (err,
   mkWorld (accounts w) tokens' (calls w ++ [CallLogoutAccount accountID])).

Definition AccountArchiver (accountID : Z) (w : World) : option error * World :=
  let '(affected, err, w) := callArchive accountID w in
  match err with
  | Some e => (Some (Wrap e "Archive"), w)
  | None =>
      if negb affected
      then (Some (FieldErrors [mkFieldError "account" ErrNotFound]), w)
      else callLogoutAccount accountID w
  end.

End Services.

(** *** Stores in memory, for the examples *)

(** The token store of the examples: the tokens of each account, and
    whether the store can be reached. *)
Record MemTokens : Type := mkMemTokens {
  reachable : bool;
  sessions : gmap Z (list string)
}.

(** An account store that maps the identifier of each account to whether it
    is archived, where archiving affects a row iff the account exists; and a
    token store whose bulk logout removes the tokens of the account, or fails
    when the store cannot be reached. *)
#[export] Instance memStores : Stores := {|
  AccountStore := gmap Z bool;
  RefreshTokenStore := MemTokens;
  Archive := fun store id =>
    match store !! id with
    | Some _ => (true, None, <[ id := true ]> store)
    | None => (false, None, store)
    end;
  LogoutAccount := fun store id =>
    if reachable store
    then (None, mkMemTokens true (delete id (sessions store)))
    else (Some (Wrap (LibError "redis" "connection refused") "FindAll"), store);
  ErrNotFound := "NOT_FOUND"
|}.

(** Stores whose database cannot be reached: [Archive] reports an error (and
    an affected row beside it, which a caller must not trust). *)
Definition downStores : Stores := {|
  AccountStore := unit;
  RefreshTokenStore := unit;
  Archive := fun store id =>
    (true, Some (LibError "sql" "connection refused"), store);
  LogoutAccount := fun store id => (None, store);
  ErrNotFound := "NOT_FOUND"
|}.

(** A reader whose first read gives 42 and whose later reads fail. *)
Definition oneGoodRead : Reader :=
  mkReader (fun i => match i with O => Some 42 | S _ => None end) 0.

(** A reader that gives 10000001, 10000002, ... *)
Definition countingReader : Reader :=
  mkReader (fun i => Some (10000001 + Z.of_nat i)) 0.

(** Account 7 exists and has two refresh tokens; account 9 does not exist. *)
Definition memWorld (up : bool) : World :=
  mkWorld {[ 7 := false ]} (mkMemTokens up {[ 7 := ["tok-a"; "tok-b"] ]}) [].

(** ** A concrete installation for the examples *)

(** An installation in which the library calls that the configurers only
    pass on all fail; the examples below use it where a step does not reach
    these calls. *)
#[export] Instance offline : Externals := {|
  route_Domain := string;
  private_Key := unit;
  rsa_PrivateKey := unit;
  time_Location := string;
  oauth_Credentials := string * string;
  ops_ErrorReporterType := Z;
  url_Parse := fun rawurl => (None, Some (LibError "url" "parse"));
  pem_decodeFrom := fun data => (None, data);
  x509_ParsePKCS1PrivateKey := fun der => (None, Some (LibError "x509" "parse"));
  private_NewKey := fun key => (None, Some (LibError "private" "NewKey"))
|}.

(** The packages of the examples: a domain is its text, the only time zone
    is UTC, and credentials are what is before and after the last colon. *)
#[export] Instance offlinePackages : Packages := {|
  route_ParseDomain := fun domain => domain;
  time_LoadLocation := fun name =>
    if String.eqb name "UTC" then (Some "UTC", None)
    else (None, Some (LibError "time" "unknown time zone"));
  oauth_NewCredentials := fun val =>
    match url.cutLast ":" val with
    | Some idSecret => (Some idSecret, None)
    | None => (None, Some (LibError "oauth" "missing credentials"))
    end;
  ops_Sentry := 1;
  ops_Airbrake := 2
|}.




(** An issuer URL whose port is a number beyond the largest [int]. *)
Definition issuerWithHugePort : url.URL :=
  url.mkURL "https" "" None "auth.example.com:99999999999999999999" "" ""
    false "" "".

(** Go's [Config{}]: every field has its zero value. *)
Definition zeroConfig : Config :=
  mkConfig None 0 [] None None [] 0 false 0 [] 0 0 None None "" "" [] [] [] []
    0 None None false "" 0 "" "" false None 0 0 "" 0 0 0 false
    None None None None.

(** Three environments for the secret base: the direct variable alone; the
    file variable naming a file that exists; and the file variable naming a
    file that does not exist, beside the direct variable. *)
Definition osDirectSecret : OS :=
  mkOS {[ "SECRET_KEY_BASE" := "s3cret" ]} ∅.

Definition osFileSecret : OS :=
  mkOS {[ "SECRET_KEY_BASE_FILE" := "/run/secrets/base" ]}
    {[ "/run/secrets/base" := bytes_of_string "from-file" ]}.

Definition osUnreadableFile : OS :=
  mkOS (<[ "SECRET_KEY_BASE_FILE" := "/run/secrets/base" ]>
          {[ "SECRET_KEY_BASE" := "s3cret" ]}) ∅.

(** The word [yes] written with U+017F, the long s, in UTF-8. *)
Definition yesWithLongS : string :=
  "ye" +:+ String (ascii_of_nat 197) (String (ascii_of_nat 191) "").

(** A parsed [https://auth.example.com/authn], which has no port. *)
Definition exampleIssuer : url.URL :=
  url.mkURL "https" "" None "auth.example.com" "/authn" "" false "" "".

(* ===================================================================== *)
(** * Part II: properties                                                 *)
(* ===================================================================== *)

Section EnvAccessor.

Lemma append_inj_l (p s t : string) : p +:+ s = p +:+ t -> s = t.
Proof.
  induction p as [|c p IH]; simpl; intros H; [exact H|].
  injection H as H. auto.
Qed.

(** C9. For every variable name [X] that is unset in the environment,
    [requireEnv X] fails: the value is empty and the error is the
    [ErrMissingEnvVar] carrying [X], whose message is
    ["missing environment variable: "] followed by [X]; the message
    determines [X], so it identifies exactly that variable. *)
Theorem requireEnv_unset_names_variable (os : OS) (X : string) :
  LookupEnv os X = None ->
  requireEnv os X = ("", Some (ErrMissingEnvVar X))
  /\ ErrMissingEnvVar_Error X = "missing environment variable: " +:+ X
  /\ (forall Y, ErrMissingEnvVar_Error Y = ErrMissingEnvVar_Error X -> Y = X).
Proof.
  intros Hunset. unfold requireEnv. rewrite Hunset.
  repeat split. intros Y HY. now apply append_inj_l in HY.
Qed.

Lemma requireEnv_unset_names_variable_witness :
  LookupEnv (mkOS {[ "HOME" := "/root" ]} ∅) "APP_DOMAINS" = None
  /\ requireEnv (mkOS {[ "HOME" := "/root" ]} ∅) "APP_DOMAINS"
     = ("", Some (ErrMissingEnvVar "APP_DOMAINS")).
Proof.
  split; [reflexivity|].
  apply (requireEnv_unset_names_variable
           (mkOS {[ "HOME" := "/root" ]} ∅) "APP_DOMAINS").
  reflexivity.
Defined.

End EnvAccessor.


Section Regexp.
Import utf8 regexp.

Ltac split_test :=
  match goal with
  | |- context [Z.eqb ?a ?b] => destruct (Z.eqb_spec a b)
  | |- context [Z.leb ?a ?b] => destruct (Z.leb_spec a b)
  end; cbn [andb orb] in *; try lia.

Lemma SimpleFold_cycle (r : rune) :
  SimpleFold r = r \/ SimpleFold (SimpleFold r) = r
  \/ SimpleFold (SimpleFold (SimpleFold r)) = r.
Proof.
  unfold SimpleFold. repeat split_test; auto.
Qed.

Lemma SimpleFold_lower (r : rune) :
  0x61 <= r <= 0x7A -> r <> 0x6B -> r <> 0x73 -> SimpleFold r = r - 32.
Proof. intros. unfold SimpleFold. repeat split_test. Qed.

Lemma SimpleFold_upper (r : rune) :
  0x41 <= r <= 0x5A -> r <> 0x4B -> r <> 0x53 -> SimpleFold r = r + 32.
Proof. intros. unfold SimpleFold. repeat split_test. Qed.

(** Under (?i) a lower-case letter of the pattern matches its two cases, and
    [k] and [s] also the Kelvin sign and the long s. *)
Lemma MatchRune_lower_cases (r0 r : rune) :
  0x61 <= r0 <= 0x7A ->
  MatchRune r0 true r
  = (r =? r0) || (r =? r0 - 32)
    || ((r0 =? 0x6B) && (r =? 0x212A)) || ((r0 =? 0x73) && (r =? 0x17F)).
Proof.
  intros Hr0. unfold MatchRune. cbn [andb].
  destruct (Z.eqb_spec r0 0x6B) as [->|Hk].
  { cbn. repeat split_test. }
  destruct (Z.eqb_spec r0 0x73) as [->|Hs].
  { cbn. repeat split_test. }
  cbn [foldReaches andb orb].
  rewrite (SimpleFold_lower r0) by assumption.
  rewrite (SimpleFold_upper (r0 - 32)) by lia.
  replace (r0 - 32 + 32) with r0 by lia.
  rewrite Z.eqb_refl.
  destruct (Z.eqb_spec (r0 - 32) r0); [lia|].
  now rewrite !orb_false_r.
Qed.

Lemma MatchRune_lower (r0 r : rune) :
  0x61 <= r0 <= 0x7A ->
  MatchRune r0 true r = true <-> foldKey r = r0.
Proof.
  intros Hr0. rewrite MatchRune_lower_cases by assumption.
  unfold foldKey. repeat split_test; split; intros; try lia; try discriminate.
Qed.

(** The walk along an orbit is back at its start after at most three steps,
    so the bound 4 of [MatchRune] never cuts it short. *)
Lemma foldReaches_at_start (n : nat) (r0 r : rune) :
  foldReaches n r0 r0 r = false.
Proof. destruct n; cbn; [|rewrite Z.eqb_refl]; reflexivity. Qed.

Lemma foldReaches_fuel (n : nat) (r0 r : rune) :
  foldReaches (3 + n) r0 (SimpleFold r0) r
  = foldReaches 3 r0 (SimpleFold r0) r.
Proof.
  cbn [foldReaches Nat.add].
  destruct (SimpleFold_cycle r0) as [H|[H|H]]; rewrite H.
  - now rewrite Z.eqb_refl.
  - rewrite Z.eqb_refl. reflexivity.
  - now rewrite Z.eqb_refl.
Qed.

Lemma foldKey_lower (b : rune) : 0x61 <= b <= 0x7A -> foldKey b = b.
Proof. intros. unfold foldKey. repeat split_test. Qed.

(** A lower-case word under (?i) matches exactly the prefixes that fold to
    it, rune by rune. *)
Lemma matchAt_foldWord (w : list rune) :
  lowerWord w ->
  forall atBegin s k,
    matchAt (foldWord w) atBegin s k = true <->
    exists pre rest,
      s = pre ++ rest
      /\ Forall2 (fun a b => foldKey a = b) pre w
      /\ k (match w with [] => atBegin | _ :: _ => false end) rest = true.
Proof.
  induction 1 as [|b w Hb Hw IH]; intros atBegin s k; cbn [foldWord matchAt].
  - split.
    + intros Hk. exists [], s. repeat split; [constructor|exact Hk].
    + intros (pre & rest & -> & Hpre & Hk). inversion Hpre; subst. exact Hk.
  - destruct s as [|r s'].
    + split; [discriminate|].
      intros (pre & rest & Hs & Hpre & _). inversion Hpre; subst. discriminate.
    + rewrite andb_true_iff, MatchRune_lower, IH by assumption. split.
      * intros (Hr & pre & rest & -> & Hpre & Hk).
        exists (r :: pre), rest. repeat split.
        -- now constructor.
        -- now destruct w.
      * intros (pre & rest & Hs & Hpre & Hk).
        inversion Hpre as [|a b' pre' w' Hab Hpre']; subst.
        injection Hs as -> ->. split; [reflexivity|].
        exists pre', rest. repeat split; [assumption|now destruct w].
Qed.

(** A whole text matches [w] followed by the end of the text iff it folds to
    [w]. *)
Lemma matchAt_foldWord_EndText (w : list rune) (atBegin : bool) (s : list rune) :
  lowerWord w ->
  matchAt (foldWord w) atBegin s
    (fun atb s' => matchAt EndText atb s' (fun _ _ => true)) = true
  <-> Forall2 (fun a b => foldKey a = foldKey b) s w.
Proof.
  intros Hw. rewrite matchAt_foldWord by assumption. split.
  - intros (pre & rest & -> & Hpre & Hend).
    destruct rest; [|discriminate]. rewrite app_nil_r.
    clear Hend. induction Hpre as [|a b pre w' Hab Hpre IH]; [constructor|].
    inversion Hw; subst. constructor; [|auto].
    now rewrite (foldKey_lower (foldKey a)).
  - intros Hs. exists s, []. rewrite app_nil_r. repeat split.
    clear atBegin. induction Hs as [|a b s w' Hab Hs IH]; [constructor|].
    inversion Hw; subst. constructor; [|auto].
    now rewrite Hab, foldKey_lower.
Qed.

(** A pattern that starts with [^] matches nowhere but at the beginning. *)
Lemma search_BeginText_later (re : Regexp) (s : list rune) :
  search (Concat BeginText re) false s = false.
Proof. induction s as [|r s IH]; cbn; [reflexivity|exact IH]. Qed.

Lemma search_BeginText (re : Regexp) (s : list rune) :
  search (Concat BeginText re) true s = matchAt re true s (fun _ _ => true).
Proof.
  destruct s as [|r s]; cbn [search matchAt andb].
  - now rewrite orb_false_r.
  - now rewrite search_BeginText_later, orb_false_r.
Qed.

Lemma truthy_words_lower :
  lowerWord (runes "t") /\ lowerWord (runes "true") /\ lowerWord (runes "yes").
Proof.
  unfold lowerWord.
  repeat split; vm_compute; repeat (constructor; [split; discriminate|]);
    constructor.
Qed.

(** The pattern of [lookupBool] finds a match in a value iff the value folds
    to one of the three words. *)
Lemma truthyPattern_matches (val : string) :
  search truthyPattern true (runes val) = true
  <-> exists w, In w truthyVocabulary /\ EqualFold val w.
Proof.
  destruct truthy_words_lower as (Ht & Htrue & Hyes).
  unfold truthyPattern. rewrite search_BeginText.
  cbn [matchAt]. rewrite !orb_true_iff.
  rewrite !matchAt_foldWord_EndText by assumption.
  unfold truthyVocabulary, EqualFold. cbn [In]. split.
  - intros [H|[H|H]]; eauto 6.
  - intros (w & [<-|[<-|[<-|[]]]] & H); auto.
Qed.

End Regexp.

Section LookupBool.
Import utf8 regexp.

(** C8. When the variable is present, [lookupBool] returns no error and the
    boolean it returns is true iff the value matches [t], [true] or [yes]
    case-insensitively; for the value [false] it returns false, with no
    error; when the variable is absent it returns the default. *)
Theorem lookupBool_truthy_vocabulary (os : OS) (name : string) (def : bool) :
  (forall val, LookupEnv os name = Some val ->
     exists b, lookupBool os name def = (b, None)
       /\ (b = true <-> exists w, In w truthyVocabulary /\ EqualFold val w))
  /\ (LookupEnv os name = Some "false" ->
      lookupBool os name def = (false, None))
  /\ (LookupEnv os name = None -> lookupBool os name def = (def, None)).
Proof.
  unfold lookupBool, MatchString. split; [|split].
  - intros val ->. eexists. split; [reflexivity|].
    apply truthyPattern_matches.
  - intros ->. reflexivity.
  - now intros ->.
Qed.

Lemma lookupBool_truthy_vocabulary_witness :
  lookupBool (mkOS {[ "PROXIED" := "false" ]} ∅) "PROXIED" true = (false, None)
  /\ lookupBool (mkOS {[ "PROXIED" := "false" ]} ∅) "ENABLE_SIGNUP" true
     = (true, None).
Proof.
  destruct (lookupBool_truthy_vocabulary
              (mkOS {[ "PROXIED" := "false" ]} ∅) "PROXIED" true)
    as (_ & Hfalse & _).
  destruct (lookupBool_truthy_vocabulary
              (mkOS {[ "PROXIED" := "false" ]} ∅) "ENABLE_SIGNUP" true)
    as (_ & _ & Habsent).
  split; [apply Hfalse | apply Habsent]; reflexivity.
Defined.

(** The three words in any case are truthy; a word that only contains one
    of them is not; case-insensitive as the pattern has it includes the two
    runes outside ASCII that fold to a letter of ASCII. *)
Example lookupBool_examples :
  let flag v := fst (lookupBool (mkOS {[ "FLAG" := v ]} ∅) "FLAG" false) in
  map flag ["t"; "T"; "TrUe"; "YES"; yesWithLongS]
  = [true; true; true; true; true]
  /\ map flag [""; "false"; "f"; "no"; "1"; "on"; "yes "; " yes"; "xyes"; "tr"]
     = [false; false; false; false; false; false; false; false; false; false].
Proof. split; reflexivity. Qed.

End LookupBool.

Section LibraryExamples.

Example Atoi_examples :
  strconv.Atoi "8080" = (8080, None)
  /\ strconv.Atoi "-12" = (-12, None)
  /\ strconv.Atoi "" = (0, Some (NumError "Atoi" "" ErrSyntax))
  /\ strconv.Atoi "80a" = (0, Some (NumError "Atoi" "80a" ErrSyntax))
  /\ strconv.Atoi "9223372036854775808"
     = (9223372036854775807,
        Some (NumError "Atoi" "9223372036854775808" ErrRange)).
Proof. repeat split. Qed.

Example splitHostPort_examples :
  url.splitHostPort "auth.example.com:8080" = ("auth.example.com", "8080")
  /\ url.splitHostPort "auth.example.com" = ("auth.example.com", "")
  /\ url.splitHostPort "[::1]:443" = ("::1", "443")
  /\ url.splitHostPort "[::1]" = ("::1", "").
Proof. repeat split. Qed.

Example ReplaceAll_example :
  strings.ReplaceAll "-----BEGIN X-----\nAA==\n-----END X-----" "\n"
    (String LF "")
  = "-----BEGIN X-----" +:+ String LF "AA==" +:+ String LF "-----END X-----".
Proof. reflexivity. Qed.

End LibraryExamples.



Section Derivation.

Example sha256_abc :
  hex (sha256.Sum256 (bytes_of_string "abc"))
  = "ba7816bf8f01cfea414140de5dae2223b00361a396177a9cb410ff61f20015ad".
Proof. vm_compute. reflexivity. Qed.

Example hmac_sha256_rfc4231_case2 :
  hex (hmac.MAC sha256.New (bytes_of_string "Jefe")
         (bytes_of_string "what do ya want for nothing?"))
  = "5bdcc146bf60754e6a042426089575c75a003f089d2739839dec58b964ec3843".
Proof. vm_compute. reflexivity. Qed.

Example pbkdf2_hmac_sha256_two_iterations :
  hex (pbkdf2.Key (bytes_of_string "password") (bytes_of_string "salt")
         2 32 sha256.New)
  = "ae4d0c95af6b46d32d0adff928f06dd02a303f8ef3c251dfd6e2d85a95474c43".
Proof. vm_compute. reflexivity. Qed.

Lemma xor_bytes_length (a b : list byte) :
  length (hmac.xor_bytes a b) = length a.
Proof.
  revert b. induction a as [|x a IH]; intros [|y b]; cbn; auto.
Qed.

Lemma MAC_length (h : Hash) (key m : list byte) :
  Z.of_nat (length (hmac.MAC h key m)) = Size h.
Proof. unfold hmac.MAC. apply Sum_length. Qed.

(** Every block of PBKDF2 is as long as the output of the function it
    iterates. *)
Lemma block_length (prf : list byte -> list byte) (n : nat)
    (salt : list byte) (iter i : Z) :
  (forall m, length (prf m) = n) ->
  length (pbkdf2.block prf salt iter i) = n.
Proof.
  intros Hprf. unfold pbkdf2.block.
  apply (N.iter_invariant (Z.to_N (iter - 1)) _ _
           (fun UT : list byte * list byte => length (snd UT) = n)).
  - intros [U T] HT; cbn in *. now rewrite xor_bytes_length.
  - apply Hprf.
Qed.

Lemma flat_map_length_const {A B : Type} (f : A -> list B) (n : nat)
    (l : list A) :
  (forall a, length (f a) = n) -> length (flat_map f l) = (length l * n)%nat.
Proof.
  intros Hf. induction l as [|a l IH]; cbn; [reflexivity|].
  rewrite length_app, Hf, IH. reflexivity.
Qed.

(** [pbkdf2.Key] returns exactly [keyLen] bytes, for a hash that returns at
    least one byte. *)
Lemma Key_length (password salt : list byte) (iter keyLen : Z) (h : Hash) :
  0 < Size h -> 0 <= keyLen ->
  Z.of_nat (length (pbkdf2.Key password salt iter keyLen h)) = keyLen.
Proof.
  intros Hsize HkeyLen. unfold pbkdf2.Key.
  rewrite length_firstn.
  rewrite (flat_map_length_const _ (Z.to_nat (Size h))).
  2:{ intros i. apply block_length. intros m.
      rewrite <- (MAC_length h password m). now rewrite Nat2Z.id. }
  rewrite length_seq.
  assert (keyLen <= (keyLen + Size h - 1) / Size h * Size h).
  { pose proof (Z.mul_succ_div_gt (keyLen + Size h - 1) (Size h) Hsize). lia. }
  assert (0 <= (keyLen + Size h - 1) / Size h) by (apply Z.div_pos; lia).
  rewrite Nat.min_l; nia.
Qed.

End Derivation.

Section SecretKeyBase.
Context `{Externals}.

Lemma derive_length (base : list byte) (label : string) :
  length (derive base label) = 128%nat.
Proof.
  apply Nat2Z.inj. unfold derive.
  now rewrite Key_length.
Qed.

Lemma sliceTo_derive (base : list byte) (label : string) :
  sliceTo (derive base label) 32 = Returns (firstn 32 (derive base label)).
Proof.
  unfold sliceTo. now rewrite derive_length.
Qed.

(** The step, by the base it obtains. *)
Lemma configureSecretKeyBase_obtained (os : OS) (c : Config) :
  match obtainedBase os with
  | Some base =>
      configureSecretKeyBase os c = Returns (None, derivedKeys base c)
  | None => exists e, configureSecretKeyBase os c = Returns (Some e, c)
  end.
Proof.
  unfold obtainedBase, configureSecretKeyBase, requireEnv, ReadFile.
  destruct (LookupEnv os "SECRET_KEY_BASE_FILE") as [fileName|].
  - destruct (files os !! fileName) as [contents|]; [|eauto].
    rewrite sliceTo_derive. destruct c. reflexivity.
  - destruct (LookupEnv os "SECRET_KEY_BASE") as [val|]; cbn; [|eauto].
    rewrite sliceTo_derive. destruct c. reflexivity.
Qed.

Lemma configureSecretKeyBase_with_base (os : OS) (c : Config)
    (base : list byte) :
  obtainedBase os = Some base ->
  configureSecretKeyBase os c = Returns (None, derivedKeys base c).
Proof.
  intros Hbase. pose proof (configureSecretKeyBase_obtained os c) as Hob.
  now rewrite Hbase in Hob.
Qed.

Lemma configureSecretKeyBase_success (os : OS) (c c' : Config) :
  configureSecretKeyBase os c = Returns (None, c') ->
  exists base, obtainedBase os = Some base /\ c' = derivedKeys base c.
Proof.
  intros Hstep. pose proof (configureSecretKeyBase_obtained os c) as Hob.
  destruct (obtainedBase os) as [base|].
  - exists base. split; [reflexivity|]. congruence.
  - destruct Hob as [e He]. congruence.
Qed.

(** C3, as amended. The step takes its base from the file that
    SECRET_KEY_BASE_FILE names when that variable is set, and from
    SECRET_KEY_BASE only when SECRET_KEY_BASE_FILE is not set; it returns an
    error, and leaves the record as it was, iff that yields no base (the
    named file cannot be read, or neither variable is set); with a base it
    returns no error and the record differs from the one it was given in
    exactly the five key fields, each derived from the base with its own
    label (the database key cut to its first 32 bytes); the five labels
    differ from one another. *)
Theorem secret_key_base_step (os : OS) (c : Config) :
  (returnsError (configureSecretKeyBase os c) <-> obtainedBase os = None)
  /\ (obtainedBase os = None ->
      exists e, configureSecretKeyBase os c = Returns (Some e, c))
  /\ (forall base, obtainedBase os = Some base ->
      configureSecretKeyBase os c
      = Returns (None,
          withKeys c
            (derive base "session-key-salt")
            (derive base "password-reset-token-key-salt")
            (derive base "passwordless-token-key-salt")
            (firstn 32 (derive base "db-encryption-key-salt"))
            (derive base "oauth-key-salt")))
  /\ NoDup keyLabels.
Proof.
  pose proof (configureSecretKeyBase_obtained os c) as Hob.
  repeat split.
  - intros (e & c' & Hret). destruct (obtainedBase os); [congruence|reflexivity].
  - intros Hnone. rewrite Hnone in Hob. destruct Hob as [e He].
    exists e, c. exact He.
  - intros Hnone. now rewrite Hnone in Hob.
  - intros base Hbase. now rewrite Hbase in Hob.
  - apply (bool_decide_unpack _). vm_compute. exact I.
Qed.

(** C6. Whatever base the step obtains, of any length, it returns without
    error and the database-encryption key it has stored is the first 32
    bytes of the key derived with the database label: exactly 32 bytes; so
    whenever the step returns without error, [DBEncryptionKey] is 32 bytes
    long. *)
Theorem db_encryption_key_is_32_bytes (os : OS) (c : Config) :
  (forall base, obtainedBase os = Some base ->
     exists c', configureSecretKeyBase os c = Returns (None, c')
       /\ DBEncryptionKey c' = firstn 32 (derive base "db-encryption-key-salt")
       /\ length (DBEncryptionKey c') = 32%nat)
  /\ (forall c', configureSecretKeyBase os c = Returns (None, c') ->
      length (DBEncryptionKey c') = 32%nat).
Proof.
  assert (Hlen : forall b, length (DBEncryptionKey (derivedKeys b c)) = 32%nat).
  { intros b. cbn. now rewrite length_firstn, derive_length. }
  split.
  - intros base Hbase. exists (derivedKeys base c).
    split; [now apply configureSecretKeyBase_with_base|].
    split; [reflexivity|apply Hlen].
  - intros c' Hstep.
    apply configureSecretKeyBase_success in Hstep as (b & _ & ->). apply Hlen.
Qed.

(** C10. For every base and label, [derive] returns exactly 128 bytes; so
    whenever the secret-base step returns without error, the four key
    fields that are not cut are 128 bytes long each, and not empty. *)
Theorem derive_returns_128_bytes (base : list byte) (label : string) :
  length (derive base label) = 128%nat
  /\ (forall os c c', configureSecretKeyBase os c = Returns (None, c') ->
      (length (SessionSigningKey c') = 128%nat
       /\ length (ResetSigningKey c') = 128%nat
       /\ length (PasswordlessTokenSigningKey c') = 128%nat
       /\ length (OAuthSigningKey c') = 128%nat)
      /\ SessionSigningKey c' <> [] /\ ResetSigningKey c' <> []
      /\ PasswordlessTokenSigningKey c' <> [] /\ OAuthSigningKey c' <> []).
Proof.
  split; [apply derive_length|].
  intros os c c' Hstep.
  apply configureSecretKeyBase_success in Hstep as (b & _ & ->). cbn.
  assert (Hne : forall l, derive b l <> []).
  { intros l Hnil. pose proof (derive_length b l) as Hlen.
    rewrite Hnil in Hlen. discriminate Hlen. }
  rewrite !derive_length. auto 10.
Qed.

End SecretKeyBase.

Section SecretKeyBaseExamples.

Lemma secret_key_base_step_witness :
  obtainedBase osFileSecret = Some (bytes_of_string "from-file")
  /\ configureSecretKeyBase osFileSecret zeroConfig
     = Returns (None, derivedKeys (bytes_of_string "from-file") zeroConfig).
Proof.
  split; [reflexivity|].
  destruct (secret_key_base_step osFileSecret zeroConfig)
    as (_ & _ & Hbase & _).
  apply Hbase. reflexivity.
Defined.

(** C3, as the claim states it, fails: with SECRET_KEY_BASE_FILE naming a
    file that cannot be read and SECRET_KEY_BASE set, the direct source
    yields a base, and the step returns the error of the read all the same,
    without falling back. *)
Lemma secret_key_base_no_fallback_on_read_failure :
  ~ (returnsError (configureSecretKeyBase osUnreadableFile zeroConfig)
     <-> fileSecret osUnreadableFile = None
         /\ directSecret osUnreadableFile = None).
Proof.
  intros [Herr _].
  assert (Hret : returnsError (configureSecretKeyBase osUnreadableFile zeroConfig)).
  { exists (PathError "open" "/run/secrets/base"), zeroConfig. reflexivity. }
  destruct (Herr Hret) as [_ Hdirect]. discriminate Hdirect.
Qed.

Lemma db_encryption_key_is_32_bytes_witness :
  length (DBEncryptionKey (derivedKeys (bytes_of_string "s3cret") zeroConfig))
  = 32%nat.
Proof.
  destruct (db_encryption_key_is_32_bytes osDirectSecret zeroConfig)
    as [_ Hstep].
  refine (Hstep (derivedKeys (bytes_of_string "s3cret") zeroConfig) _).
  apply configureSecretKeyBase_with_base. reflexivity.
Defined.

Lemma derive_returns_128_bytes_witness :
  length (SessionSigningKey
            (derivedKeys (bytes_of_string "s3cret") zeroConfig)) = 128%nat.
Proof.
  destruct (derive_returns_128_bytes [] "session-key-salt") as [_ Hstep].
  refine (proj1 (proj1 (Hstep osDirectSecret zeroConfig
            (derivedKeys (bytes_of_string "s3cret") zeroConfig) _))).
  apply configureSecretKeyBase_with_base. reflexivity.
Defined.

End SecretKeyBaseExamples.

Section Configurers.
Context `{Externals}.

(** A host without a colon has no port. *)
Lemma Port_without_colon (u : url.URL) :
  url.cutLast ":" (url.Host u) = None -> url.Port u = "".
Proof.
  intros Hcut. unfold url.Port, url.splitHostPort. rewrite Hcut.
  now destruct (_ && _).
Qed.

(** The three boolean steps return no error and do not panic, whatever the
    value of their variable. *)
Lemma boolean_steps_never_fail (os : OS) (c : Config) :
  (exists b, configureUsernameIsEmail os c
             = Returns (None, set_UsernameIsEmail b c))
  /\ (exists b, configureEnableSignup os c
                = Returns (None, set_EnableSignup b c))
  /\ (exists b, configureProxied os c = Returns (None, set_Proxied b c)).
Proof.
  unfold configureUsernameIsEmail, configureEnableSignup, configureProxied,
    lookupBool, regexp.MatchString.
  repeat split; destruct (LookupEnv os _); eauto.
Qed.

(** The AUTHN_URL step stores the URL it has parsed. *)
Lemma configureAuthNURL_stores_url (os : OS) (c c' : Config) :
  configureAuthNURL os c = Returns (None, c') ->
  exists raw u,
    LookupEnv os "AUTHN_URL" = Some raw /\ url_Parse raw = (Some u, None)
    /\ AuthNURL c' = Some u.
Proof.
  unfold configureAuthNURL, lookupURL.
  destruct (LookupEnv os "AUTHN_URL") as [raw|]; [|discriminate].
  destruct (url_Parse raw) as [[u|] [e|]] eqn:Hparse; try discriminate.
  intros [= <-]. exists raw, u.
  split; [reflexivity|split; [exact Hparse|]].
  destruct c. now destruct (String.eqb (url.Path u) "").
Qed.

(** C2 (what the code does). With DATABASE_URL_FILE absent the step never
    reaches its fallback: whether DATABASE_URL is set or not, it returns no
    error and stores a nil [DatabaseURL]. *)
Theorem database_url_step_without_file_variable (os : OS) (c : Config) :
  LookupEnv os "DATABASE_URL_FILE" = None ->
  configureDatabaseURL os c = Returns (None, set_DatabaseURL None c).
Proof.
  intros Hfile. unfold configureDatabaseURL, lookupSecureURL.
  now rewrite Hfile.
Qed.

(** C1 (what the code does). With an issuer URL without a port and PORT
    unset, the step returns no error and sets the server port to 0: the
    error of [strconv.Atoi] is overwritten before it is looked at. *)
Theorem port_step_without_port (os : OS) (c : Config) (u : url.URL) :
  AuthNURL c = Some u -> url.Port u = "" -> LookupEnv os "PORT" = None ->
  configurePort os c = Returns (None, set_ServerPort 0 c).
Proof.
  intros Hurl Hport Hunset. unfold configurePort, lookupInt.
  now rewrite Hurl, Hport, Hunset.
Qed.

(** So the two steps in the order of the pipeline, on an issuer URL that
    parses to a host without a port and with PORT unset, both return
    without error, and the server port is 0. *)
Lemma issuer_without_port_then_port_step (os : OS) (c c1 : Config) :
  configureAuthNURL os c = Returns (None, c1) ->
  (forall u, AuthNURL c1 = Some u -> url.Port u = "") ->
  LookupEnv os "PORT" = None ->
  configurePort os c1 = Returns (None, set_ServerPort 0 c1)
  /\ ServerPort (set_ServerPort 0 c1) = 0.
Proof.
  intros Hissuer Hport Hunset.
  apply configureAuthNURL_stores_url in Hissuer as (raw & u & _ & _ & Hu).
  split; [|now destruct c1].
  unfold configurePort, lookupInt. now rewrite Hu, (Hport u Hu), Hunset.
Qed.

(** C7 (what the code does). When the value of RSA_PRIVATE_KEY, with its
    escaped line feeds replaced, holds no start of a PEM block, the step
    panics on the nil block instead of returning an error. *)
Theorem rsa_step_panics_without_pem_block (os : OS) (c : Config) (str : string) :
  LookupEnv os "RSA_PRIVATE_KEY" = Some str ->
  pem.hasStart (strings.ReplaceAll str "\n" (String LF "")) = false ->
  configureRSAPrivateKey os c
  = Panics "invalid memory address or nil pointer dereference".
Proof.
  intros Hset Hstart. unfold configureRSAPrivateKey, pem_Decode.
  rewrite Hset. unfold string_of_bytes, bytes_of_string.
  now rewrite string_of_list_byte_of_string, Hstart.
Qed.

(** The other two parts of C7 hold: the block that is decoded is the one of
    the value with its escaped line feeds replaced, and key material that
    does not parse makes the step return the error of the parser. *)
Lemma rsa_step_returns_parse_error (os : OS) (c : Config) (str : string)
    (b : pem.Block) (rest : list byte) (key : option rsa_PrivateKey)
    (e : error) :
  LookupEnv os "RSA_PRIVATE_KEY" = Some str ->
  pem_Decode (bytes_of_string (strings.ReplaceAll str "\n" (String LF "")))
  = (Some b, rest) ->
  x509_ParsePKCS1PrivateKey (pem.Bytes b) = (key, Some e) ->
  configureRSAPrivateKey os c = Returns (Some e, c).
Proof.
  intros Hset Hblock Hparse. unfold configureRSAPrivateKey.
  now rewrite Hset, Hblock, Hparse.
Qed.

End Configurers.

Section ConfigurerExamples.

Lemma database_url_step_without_file_variable_witness :
  LookupEnv (mkOS ∅ ∅) "DATABASE_URL_FILE" = None
  /\ LookupEnv (mkOS ∅ ∅) "DATABASE_URL" = None
  /\ configureDatabaseURL (mkOS ∅ ∅) zeroConfig = Returns (None, zeroConfig).
Proof.
  split; [reflexivity|split; [reflexivity|]].
  exact (database_url_step_without_file_variable (mkOS ∅ ∅) zeroConfig eq_refl).
Defined.

Lemma port_step_without_port_witness :
  url.Port exampleIssuer = ""
  /\ configurePort (mkOS ∅ ∅) (set_AuthNURL (Some exampleIssuer) zeroConfig)
     = Returns (None,
         set_ServerPort 0 (set_AuthNURL (Some exampleIssuer) zeroConfig)).
Proof.
  split; [reflexivity|].
  exact (port_step_without_port (mkOS ∅ ∅)
           (set_AuthNURL (Some exampleIssuer) zeroConfig) exampleIssuer
           eq_refl eq_refl eq_refl).
Defined.

Lemma rsa_step_panics_without_pem_block_witness :
  configureRSAPrivateKey (mkOS {[ "RSA_PRIVATE_KEY" := "not a pem" ]} ∅)
    zeroConfig
  = Panics "invalid memory address or nil pointer dereference".
Proof.
  exact (rsa_step_panics_without_pem_block
           (mkOS {[ "RSA_PRIVATE_KEY" := "not a pem" ]} ∅) zeroConfig
           "not a pem" eq_refl eq_refl).
Defined.

End ConfigurerExamples.

Section Archiver.
Context `{Stores}.

Lemma no_token_call_after_archive (accountID : Z) (log : list StoreCall) :
  List.filter onTokenStore (log ++ [CallArchive accountID])
  = List.filter onTokenStore log.
Proof. rewrite List.filter_app. cbn. apply app_nil_r. Qed.

(** C4. For every account identifier for which [Archive] reports no row
    affected and no error, [AccountArchiver] returns the field error that
    tags [account] with [ErrNotFound]; the refresh-token store is left as it
    was and the only call made is the [Archive] call on the account store:
    no call on the refresh-token store is added. *)
Theorem archiver_not_found (accountID : Z) (w : World)
    (accounts' : AccountStore) :
  Archive (accounts w) accountID = (false, None, accounts') ->
  exists w',
    AccountArchiver accountID w
    = (Some (FieldErrors [mkFieldError "account" ErrNotFound]), w')
    /\ tokens w' = tokens w
    /\ calls w' = calls w ++ [CallArchive accountID]
    /\ List.filter onTokenStore (calls w')
       = List.filter onTokenStore (calls w).
Proof.
  intros Harchive. unfold AccountArchiver, callArchive. rewrite Harchive. cbn.
  eexists. split; [reflexivity|]. cbn.
  repeat split. apply no_token_call_after_archive.
Qed.

(** C5. [AccountArchiver] returns success only when the [Archive] call
    reported an affected row without error and the bulk revoke after it
    returned no error, the two calls made in that order (and it does return
    success then); when the bulk revoke fails after a successful archive,
    its error is what the caller gets, and the account store is in the
    state in which [Archive] left it: nothing is called to undo it. *)
Theorem archiver_success_needs_both (accountID : Z) (w : World) :
  (forall w', AccountArchiver accountID w = (None, w') ->
     exists accounts' tokens',
       Archive (accounts w) accountID = (true, None, accounts')
       /\ LogoutAccount (tokens w) accountID = (None, tokens')
       /\ w' = mkWorld accounts' tokens'
                 (calls w ++ [CallArchive accountID]
                    ++ [CallLogoutAccount accountID]))
  /\ (forall accounts' err tokens',
        Archive (accounts w) accountID = (true, None, accounts') ->
        LogoutAccount (tokens w) accountID = (err, tokens') ->
        AccountArchiver accountID w
        = (err, mkWorld accounts' tokens'
                  (calls w ++ [CallArchive accountID]
                     ++ [CallLogoutAccount accountID]))).
Proof.
  unfold AccountArchiver, callArchive, callLogoutAccount. split.
  - intros w'.
    destruct (Archive (accounts w) accountID) as [[affected err] accounts'].
    destruct err as [e|]; [discriminate|].
    destruct affected; cbn; [|discriminate].
    destruct (LogoutAccount (tokens w) accountID) as [err tokens'].
    intros [= -> <-]. exists accounts', tokens'.
    now rewrite <- app_assoc.
  - intros accounts' err tokens' -> . cbn. intros ->.
    now rewrite <- app_assoc.
Qed.

End Archiver.

Section ArchiverExamples.

Lemma archiver_not_found_witness :
  fst (AccountArchiver 9 (memWorld true))
  = Some (FieldErrors [mkFieldError "account" "NOT_FOUND"])
  /\ List.filter onTokenStore (calls (snd (AccountArchiver 9 (memWorld true))))
     = [].
Proof.
  destruct (archiver_not_found 9 (memWorld true) {[ 7 := false ]} eq_refl)
    as (w' & Hret & _ & _ & Hnone).
  rewrite Hret. split; [reflexivity|exact Hnone].
Defined.

Lemma archiver_success_needs_both_witness :
  fst (AccountArchiver 7 (memWorld true)) = None
  /\ fst (AccountArchiver 7 (memWorld false))
     = Some (Wrap (LibError "redis" "connection refused") "FindAll")
  /\ accounts (snd (AccountArchiver 7 (memWorld false))) !! 7 = Some true
  /\ calls (snd (AccountArchiver 7 (memWorld false)))
     = [CallArchive 7; CallLogoutAccount 7].
Proof.
  destruct (archiver_success_needs_both 7 (memWorld true)) as [_ Hup].
  destruct (archiver_success_needs_both 7 (memWorld false)) as [_ Hdown].
  rewrite (Hup _ _ _ eq_refl eq_refl), (Hdown _ _ _ eq_refl eq_refl).
  repeat split.
Defined.

End ArchiverExamples.

(* ===================================================================== *)
(** * Part III: the rest of the environment accessors and configurers     *)
(* ===================================================================== *)

Section Decimal.

Lemma digits_string_of_uint (d : Decimal.uint) (acc : Z) :
  strconv.digits acc (NilEmpty.string_of_uint d) = Some (uintValue acc d).
Proof.
  revert acc. induction d; intros acc; cbn [NilEmpty.string_of_uint uintValue];
    [reflexivity|..]; cbn [strconv.digits]; exact (IHd _).
Qed.

Lemma uintValue_pos (d : Decimal.uint) (acc : positive) :
  uintValue (Z.pos acc) d = Z.pos (Pos.of_uint_acc d acc).
Proof.
  revert acc. induction d; intros acc; cbn [uintValue Pos.of_uint_acc];
    [reflexivity|..];
    match goal with
    | |- uintValue ?a _ = Z.pos (Pos.of_uint_acc _ ?b) =>
        replace a with (Z.pos b) by lia; apply IHd
    end.
Qed.

Lemma uintValue_zero (d : Decimal.uint) :
  uintValue 0 d = Z.of_N (Pos.of_uint d).
Proof.
  induction d; cbn [uintValue Pos.of_uint]; [reflexivity|exact IHd|..];
    cbn [Z.mul Z.add]; apply uintValue_pos.
Qed.

Lemma uintValue_to_uint (p : positive) : uintValue 0 (Pos.to_uint p) = Z.pos p.
Proof. now rewrite uintValue_zero, Unsigned.of_to. Qed.

(** A run of digits that is not empty starts with a digit, which is no
    sign. *)
Lemma string_of_uint_head (d : Decimal.uint) :
  d <> Nil ->
  exists ch rest,
    NilEmpty.string_of_uint d = String ch rest
    /\ Ascii.eqb ch "-" = false /\ Ascii.eqb ch "+" = false.
Proof.
  destruct d; [easy|..]; intros _; cbn; eauto.
Qed.

(** [strconv.Atoi] reads back what the decimal printer writes, for every
    number of the 64-bit range. *)
Lemma Atoi_formatInt (n : Z) :
  strconv.minInt <= n <= strconv.maxInt ->
  strconv.Atoi (formatInt n) = (n, None).
Proof.
  unfold strconv.minInt, strconv.maxInt, formatInt. intros Hn.
  destruct n as [|p|p]; [reflexivity|..]; cbn [Z.to_int NilZero.string_of_int].
  - pose proof (Unsigned.to_uint_nonnil p) as Hnil.
    replace (NilZero.string_of_uint (Pos.to_uint p))
      with (NilEmpty.string_of_uint (Pos.to_uint p))
      by (now destruct (Pos.to_uint p)).
    pose proof (digits_string_of_uint (Pos.to_uint p) 0) as Hdigits.
    rewrite uintValue_to_uint in Hdigits.
    destruct (string_of_uint_head _ Hnil) as (ch & rest & Hs & Hminus & Hplus).
    rewrite Hs in *. unfold strconv.Atoi. rewrite Hminus, Hplus. cbn [orb].
    rewrite Hdigits. unfold strconv.maxInt.
    destruct (Z.leb_spec (Z.pos p) (2 ^ 63 - 1)); [reflexivity|lia].
  - pose proof (Unsigned.to_uint_nonnil p) as Hnil.
    replace (NilZero.string_of_uint (Pos.to_uint p))
      with (NilEmpty.string_of_uint (Pos.to_uint p))
      by (now destruct (Pos.to_uint p)).
    pose proof (digits_string_of_uint (Pos.to_uint p) 0) as Hdigits.
    rewrite uintValue_to_uint in Hdigits.
    destruct (string_of_uint_head _ Hnil) as (ch & rest & Hs & _).
    unfold strconv.Atoi. cbn [Ascii.eqb Bool.eqb orb].
    rewrite Hs in *. rewrite Hdigits.
    destruct (Z.leb_spec (Z.pos p) (2 ^ 63)); [reflexivity|lia].
Qed.

End Decimal.

Section LookupInt.

Lemma digits_allDigits (s : string) (acc : Z) :
  url.allDigits s = true <-> exists n, strconv.digits acc s = Some n.
Proof.
  revert acc. induction s as [|ch s IH]; intros acc; cbn.
  - split; eauto.
  - destruct (strconv.digit ch) as [d|]; [apply IH|].
    split; [discriminate|]. now intros [n Hn].
Qed.



(** X1. [lookupInt] reads back every 64-bit integer from its decimal text,
    whatever the default is. *)
Theorem lookupInt_reads_decimal (os : OS) (name : string) (def n : Z) :
  strconv.minInt <= n <= strconv.maxInt ->
  LookupEnv os name = Some (formatInt n) ->
  lookupInt os name def = (n, None).
Proof.
  intros Hn Hset. unfold lookupInt. rewrite Hset. now apply Atoi_formatInt.
Qed.

Lemma lookupInt_reads_decimal_witness :
  lookupInt (mkOS {[ "PUBLIC_PORT" := "-8081" ]} ∅) "PUBLIC_PORT" 0
  = (-8081, None).
Proof.
  refine (lookupInt_reads_decimal (mkOS {[ "PUBLIC_PORT" := "-8081" ]} ∅)
            "PUBLIC_PORT" 0 (-8081) _ eq_refl).
  unfold strconv.minInt, strconv.maxInt. lia.
Defined.



End LookupInt.

Section IntegerSteps.
Context `{Packages}.

Lemma wrap64_range (z : Z) : - 2 ^ 63 <= wrap64 z < 2 ^ 63.
Proof.
  unfold wrap64. pose proof (Z.mod_pos_bound (z + 2 ^ 63) (2 ^ 64)). lia.
Qed.

Lemma wrap64_small (z : Z) : - 2 ^ 63 <= z < 2 ^ 63 -> wrap64 z = z.
Proof. intros Hz. unfold wrap64. rewrite Z.mod_small; lia. Qed.

(** A number of seconds is a [time.Duration] without overflow exactly up to
    9223372036 seconds either way. *)
Lemma seconds_exact_iff (n : Z) :
  seconds n = n * 1000000000 <-> -9223372036 <= n <= 9223372036.
Proof.
  unfold seconds, Second. split.
  - intros Heq. pose proof (wrap64_range (n * 1000000000)). lia.
  - intros Hn. apply wrap64_small. lia.
Qed.

Lemma BcryptCost_set (v : Z) (c : Config) : BcryptCost (set_BcryptCost v c) = v.
Proof. now destruct c. Qed.

(** X3. The BCRYPT_COST step never panics; when it returns no error the
    cost in the record is at least 10 and nothing else has changed; when it
    returns an error the record is as it was; an unset variable gives the
    cost 11; and a cost below 10 is refused with a message that names the
    setting and the cost. *)
Theorem bcrypt_cost_step (os : OS) (c : Config) :
  exists err c',
    configureBcryptCost os c = Returns (err, c')
    /\ (err = None ->
        10 <= BcryptCost c' /\ c' = set_BcryptCost (BcryptCost c') c)
    /\ (err <> None -> c' = c)
    /\ (LookupEnv os "BCRYPT_COST" = None -> err = None /\ BcryptCost c' = 11)
    /\ (forall n, strconv.minInt <= n < 10 ->
          LookupEnv os "BCRYPT_COST" = Some (formatInt n) ->
          err = Some (Errorf ("BCRYPT_COST is too low: " +:+ formatInt n))).
Proof.
  unfold configureBcryptCost.
  destruct (lookupInt os "BCRYPT_COST" 11) as [cost err] eqn:Hlookup.
  assert (Hunset : LookupEnv os "BCRYPT_COST" = None -> cost = 11 /\ err = None).
  { unfold lookupInt in Hlookup. intros Hnone. rewrite Hnone in Hlookup.
    now injection Hlookup as <- <-. }
  assert (Hdec : forall n, strconv.minInt <= n < 10 ->
            LookupEnv os "BCRYPT_COST" = Some (formatInt n) ->
            cost = n /\ err = None).
  { intros n Hn Hset. unfold lookupInt in Hlookup. rewrite Hset in Hlookup.
    rewrite Atoi_formatInt in Hlookup by (unfold strconv.maxInt; lia).
    now injection Hlookup as <- <-. }
  destruct err as [e|].
  - exists (Some e), c. split; [reflexivity|].
    split; [discriminate|]. split; [reflexivity|]. split.
    + intros Hnone. now destruct (Hunset Hnone).
    + intros n Hn Hset. now destruct (Hdec n Hn Hset).
  - destruct (Z.ltb_spec cost 10) as [Hlow|Hok].
    + eexists _, c. split; [reflexivity|].
      split; [discriminate|]. split; [reflexivity|]. split.
      * intros Hnone. destruct (Hunset Hnone). lia.
      * intros n Hn Hset. now destruct (Hdec n Hn Hset) as [-> _].
    + exists None, (set_BcryptCost cost c). rewrite BcryptCost_set.
      split; [reflexivity|]. split; [easy|]. split; [easy|]. split.
      * intros Hnone. now destruct (Hunset Hnone).
      * intros n Hn Hset. destruct (Hdec n Hn Hset). lia.
Qed.

Ltac int_step :=
  unfold lookupInt;
  split; [intros Hset; rewrite Hset, Atoi_formatInt by assumption
         |intros Hunset; rewrite Hunset]; cbn [Z.mul];
  rewrite ?(proj2 (seconds_exact_iff _)) by lia; reflexivity.

(** X4. Each of the four lifetime steps stores the number of seconds of its
    variable as that many thousand million nanoseconds, for every number up
    to 9223372036 seconds either way; an unset variable gives 30 days, 30
    minutes, 30 minutes and one hour. *)
Theorem ttl_steps_in_range (os : OS) (c : Config) (n : Z) :
  -9223372036 <= n <= 9223372036 ->
  ((LookupEnv os "REFRESH_TOKEN_TTL" = Some (formatInt n) ->
    configureRefreshTokenTTL os c
    = Returns (None, set_RefreshTokenTTL (n * 1000000000) c))
   /\ (LookupEnv os "REFRESH_TOKEN_TTL" = None ->
       configureRefreshTokenTTL os c
       = Returns (None, set_RefreshTokenTTL (30 * 86400 * 1000000000) c)))
  /\ ((LookupEnv os "PASSWORD_RESET_TOKEN_TTL" = Some (formatInt n) ->
       configurePasswordResetTokenTTL os c
       = Returns (None, set_ResetTokenTTL (n * 1000000000) c))
      /\ (LookupEnv os "PASSWORD_RESET_TOKEN_TTL" = None ->
          configurePasswordResetTokenTTL os c
          = Returns (None, set_ResetTokenTTL (30 * 60 * 1000000000) c)))
  /\ ((LookupEnv os "PASSWORDLESS_TOKEN_TTL" = Some (formatInt n) ->
       configurePasswordlessTokenTTL os c
       = Returns (None, set_PasswordlessTokenTTL (n * 1000000000) c))
      /\ (LookupEnv os "PASSWORDLESS_TOKEN_TTL" = None ->
          configurePasswordlessTokenTTL os c
          = Returns (None, set_PasswordlessTokenTTL (30 * 60 * 1000000000) c)))
  /\ ((LookupEnv os "ACCESS_TOKEN_TTL" = Some (formatInt n) ->
       configureAccessTokenTTL os c
       = Returns (None, set_AccessTokenTTL (n * 1000000000) c))
      /\ (LookupEnv os "ACCESS_TOKEN_TTL" = None ->
          configureAccessTokenTTL os c
          = Returns (None, set_AccessTokenTTL (60 * 60 * 1000000000) c))).
Proof.
  intros Hn.
  assert (strconv.minInt <= n <= strconv.maxInt)
    by (unfold strconv.minInt, strconv.maxInt; lia).
  split; [|split; [|split]].
  - unfold configureRefreshTokenTTL. int_step.
  - unfold configurePasswordResetTokenTTL. int_step.
  - unfold configurePasswordlessTokenTTL. int_step.
  - unfold configureAccessTokenTTL. int_step.
Qed.

(** X5. A lifetime of more seconds than 9223372036 overflows: the step
    still returns no error, and the duration it stores is not that many
    seconds. *)
Theorem ttl_step_overflow (os : OS) (c : Config) (n : Z) :
  9223372036 < n <= strconv.maxInt ->
  LookupEnv os "REFRESH_TOKEN_TTL" = Some (formatInt n) ->
  exists d,
    configureRefreshTokenTTL os c = Returns (None, set_RefreshTokenTTL d c)
    /\ d <> n * 1000000000
    /\ strconv.minInt <= d <= strconv.maxInt.
Proof.
  intros Hn Hset. exists (seconds n). split; [|split].
  - unfold configureRefreshTokenTTL, lookupInt.
    rewrite Hset, Atoi_formatInt; [reflexivity|].
    unfold strconv.minInt, strconv.maxInt in *. lia.
  - intros Heq. apply seconds_exact_iff in Heq. lia.
  - pose proof (wrap64_range (n * Second)).
    unfold seconds, strconv.minInt, strconv.maxInt. lia.
Qed.

(** X6. The steps for the password score, the two retentions and the public
    port store any 64-bit integer as it is, negative ones included; unset
    variables give 2, 365, 104 and 0. *)
Theorem unchecked_integer_steps (os : OS) (c : Config) (n : Z) :
  strconv.minInt <= n <= strconv.maxInt ->
  ((LookupEnv os "PASSWORD_POLICY_SCORE" = Some (formatInt n) ->
    configurePasswordPolicyScore os c
    = Returns (None, set_PasswordMinComplexity n c))
   /\ (LookupEnv os "PASSWORD_POLICY_SCORE" = None ->
       configurePasswordPolicyScore os c
       = Returns (None, set_PasswordMinComplexity 2 c)))
  /\ ((LookupEnv os "DAILY_ACTIVES_RETENTION" = Some (formatInt n) ->
       configureDailyActivesRetention os c
       = Returns (None, set_DailyActivesRetention n c))
      /\ (LookupEnv os "DAILY_ACTIVES_RETENTION" = None ->
          configureDailyActivesRetention os c
          = Returns (None, set_DailyActivesRetention 365 c)))
  /\ ((LookupEnv os "WEEKLY_ACTIVES_RETENTION" = Some (formatInt n) ->
       configureWeeklyActivesRetention os c
       = Returns (None, set_WeeklyActivesRetention n c))
      /\ (LookupEnv os "WEEKLY_ACTIVES_RETENTION" = None ->
          configureWeeklyActivesRetention os c
          = Returns (None, set_WeeklyActivesRetention 104 c)))
  /\ ((LookupEnv os "PUBLIC_PORT" = Some (formatInt n) ->
       configurePublicPort os c = Returns (None, set_PublicPort n c))
      /\ (LookupEnv os "PUBLIC_PORT" = None ->
          configurePublicPort os c = Returns (None, set_PublicPort 0 c))).
Proof.
  intros Hn. split; [|split; [|split]].
  - unfold configurePasswordPolicyScore. int_step.
  - unfold configureDailyActivesRetention. int_step.
  - unfold configureWeeklyActivesRetention. int_step.
  - unfold configurePublicPort. int_step.
Qed.

End IntegerSteps.

Section IntegerStepExamples.

Lemma ttl_steps_in_range_witness :
  configureAccessTokenTTL (mkOS {[ "ACCESS_TOKEN_TTL" := "7200" ]} ∅) zeroConfig
  = Returns (None, set_AccessTokenTTL 7200000000000 zeroConfig)
  /\ configureRefreshTokenTTL (mkOS {[ "ACCESS_TOKEN_TTL" := "7200" ]} ∅)
       zeroConfig
     = Returns (None, set_RefreshTokenTTL 2592000000000000 zeroConfig).
Proof.
  assert (Hn : -9223372036 <= 7200 <= 9223372036) by lia.
  destruct (ttl_steps_in_range (mkOS {[ "ACCESS_TOKEN_TTL" := "7200" ]} ∅)
              zeroConfig 7200 Hn)
    as ((_ & Hrefresh) & _ & _ & (Haccess & _)).
  split; [apply Haccess|apply Hrefresh]; reflexivity.
Defined.

Lemma ttl_step_overflow_witness :
  exists d,
    configureRefreshTokenTTL
      (mkOS {[ "REFRESH_TOKEN_TTL" := "9223372037" ]} ∅) zeroConfig
    = Returns (None, set_RefreshTokenTTL d zeroConfig)
    /\ d <> 9223372037 * 1000000000.
Proof.
  assert (Hn : 9223372036 < 9223372037 <= strconv.maxInt)
    by (unfold strconv.maxInt; lia).
  assert (Hset : LookupEnv (mkOS {[ "REFRESH_TOKEN_TTL" := "9223372037" ]} ∅)
                   "REFRESH_TOKEN_TTL" = Some (formatInt 9223372037))
    by reflexivity.
  destruct (ttl_step_overflow _ zeroConfig 9223372037 Hn Hset)
    as (d & Hstep & Hne & _).
  exists d. split; assumption.
Defined.

Lemma unchecked_integer_steps_witness :
  configurePasswordPolicyScore
    (mkOS {[ "PASSWORD_POLICY_SCORE" := "-3" ]} ∅) zeroConfig
  = Returns (None, set_PasswordMinComplexity (-3) zeroConfig).
Proof.
  assert (Hn : strconv.minInt <= -3 <= strconv.maxInt)
    by (unfold strconv.minInt, strconv.maxInt; lia).
  destruct (unchecked_integer_steps
              (mkOS {[ "PASSWORD_POLICY_SCORE" := "-3" ]} ∅) zeroConfig (-3) Hn)
    as ((Hscore & _) & _).
  apply Hscore. reflexivity.
Defined.

End IntegerStepExamples.

Section Splitting.

Lemma Split_not_nil (s : string) (sep : ascii) : Split s sep <> [].
Proof.
  induction s as [|ch s IH]; cbn; [easy|].
  destruct (Ascii.eqb ch sep); [easy|]. now destruct (Split s sep).
Qed.

(** [Split] gives one piece more than there are separators. *)
Lemma Split_length (s : string) (sep : ascii) :
  length (Split s sep) = S (Count s sep).
Proof.
  induction s as [|ch s IH]; cbn; [reflexivity|].
  destruct (Ascii.eqb ch sep); cbn; [now rewrite IH|].
  pose proof (Split_not_nil s sep).
  destruct (Split s sep); [easy|exact IH].
Qed.

(** Joining the pieces with the separator gives the text back. *)
Lemma Join_Split (s : string) (sep : ascii) : Join (Split s sep) sep = s.
Proof.
  induction s as [|ch s IH]; cbn; [reflexivity|].
  pose proof (Split_not_nil s sep) as Hnil.
  destruct (Ascii.eqb_spec ch sep) as [->|Hne].
  - cbn. destruct (Split s sep) as [|piece pieces]; [easy|].
    cbn [append]. now rewrite IH.
  - destruct (Split s sep) as [|piece pieces]; [easy|].
    destruct pieces; cbn in *; now rewrite <- IH.
Qed.

(** No piece contains the separator. *)
Lemma Split_no_separator (s : string) (sep : ascii) :
  Forall (fun piece => Count piece sep = O) (Split s sep).
Proof.
  induction s as [|ch s IH]; cbn; [now repeat constructor|].
  destruct (Ascii.eqb ch sep) eqn:Hch; [now constructor|].
  pose proof (Split_not_nil s sep) as Hnil.
  destruct (Split s sep) as [|piece pieces]; [easy|].
  inversion IH; subst. constructor; [|assumption]. cbn. now rewrite Hch.
Qed.

End Splitting.

Section ListSteps.
Context `{Packages}.

Lemma set_ApplicationDomains_twice (a b : list route_Domain) (c : Config) :
  set_ApplicationDomains a (set_ApplicationDomains b c)
  = set_ApplicationDomains a c.
Proof. now destruct c. Qed.

Lemma ApplicationDomains_set (a : list route_Domain) (c : Config) :
  ApplicationDomains (set_ApplicationDomains a c) = a.
Proof. now destruct c. Qed.

(** The loop that appends one parsed domain per piece maps the parser over
    the pieces, after the domains that were there. *)
Lemma append_domains_loop (pieces : list string) (c : Config) :
  fold_left
    (fun c domain =>
       set_ApplicationDomains
         (ApplicationDomains c ++ [route_ParseDomain domain]) c)
    pieces c
  = match pieces with
    | [] => c
    | _ :: _ =>
        set_ApplicationDomains
          (ApplicationDomains c ++ map route_ParseDomain pieces) c
    end.
Proof.
  revert c. induction pieces as [|piece pieces IH]; intros c; [reflexivity|].
  cbn [fold_left]. rewrite IH. destruct pieces as [|piece' pieces].
  - reflexivity.
  - rewrite ApplicationDomains_set, set_ApplicationDomains_twice.
    now rewrite <- app_assoc.
Qed.

(** X7. The APP_DOMAINS step fails with the missing-variable error that
    names APP_DOMAINS, leaving the record as it was, when the variable is
    unset; otherwise it replaces the domains of the record by the parsed
    pieces of the value between its commas, in their order: one more domain
    than the value has commas, so at least one. *)
Theorem app_domains_step (os : OS) (c : Config) :
  (LookupEnv os "APP_DOMAINS" = None ->
   configureAppDomains os c
   = Returns (Some (ErrMissingEnvVar "APP_DOMAINS"), c))
  /\ (forall val, LookupEnv os "APP_DOMAINS" = Some val ->
      exists domains,
        configureAppDomains os c
        = Returns (None, set_ApplicationDomains domains c)
        /\ domains = map route_ParseDomain (Split val ",")
        /\ length domains = S (Count val ",")).
Proof.
  unfold configureAppDomains, requireEnv. split.
  - now intros ->.
  - intros val ->. exists (map route_ParseDomain (Split val ",")).
    split; [|split; [reflexivity|]].
    + rewrite append_domains_loop.
      pose proof (Split_not_nil val ",") as Hnil.
      destruct (Split val ",") as [|piece pieces]; [easy|].
      now rewrite ApplicationDomains_set, set_ApplicationDomains_twice.
    + now rewrite length_map, Split_length.
Qed.

(** X8. The EMAIL_USERNAME_DOMAINS step leaves the record as it is when the
    variable is unset; otherwise it stores the pieces of the value between
    its commas: one more than the value has commas (so one empty domain for
    the empty value), none of them with a comma, and the value again when
    joined with commas. *)
Theorem email_username_domains_step (os : OS) (c : Config) :
  (LookupEnv os "EMAIL_USERNAME_DOMAINS" = None ->
   configureEmailUsernameDomains os c = Returns (None, c))
  /\ (forall val, LookupEnv os "EMAIL_USERNAME_DOMAINS" = Some val ->
      exists domains,
        configureEmailUsernameDomains os c
        = Returns (None, set_UsernameDomains domains c)
        /\ length domains = S (Count val ",")
        /\ Join domains "," = val
        /\ Forall (fun domain => Count domain "," = O) domains).
Proof.
  unfold configureEmailUsernameDomains. split.
  - now intros ->.
  - intros val ->. exists (Split val ",").
    split; [reflexivity|].
    split; [apply Split_length|].
    split; [apply Join_Split|apply Split_no_separator].
Qed.

End ListSteps.

Section ListStepExamples.

Lemma app_domains_step_witness :
  configureAppDomains (mkOS {[ "APP_DOMAINS" := "a.example,b.example:8080" ]} ∅)
    (@set_ApplicationDomains offline ["old.example"] zeroConfig)
  = Returns (None,
      @set_ApplicationDomains offline ["a.example"; "b.example:8080"]
        zeroConfig).
Proof.
  destruct (app_domains_step
              (mkOS {[ "APP_DOMAINS" := "a.example,b.example:8080" ]} ∅)
              (@set_ApplicationDomains offline ["old.example"] zeroConfig))
    as [_ Hset].
  destruct (Hset "a.example,b.example:8080" eq_refl) as (domains & -> & -> & _).
  reflexivity.
Defined.

Lemma email_username_domains_step_witness :
  configureEmailUsernameDomains
    (mkOS {[ "EMAIL_USERNAME_DOMAINS" := "" ]} ∅) zeroConfig
  = Returns (None, set_UsernameDomains [""] zeroConfig).
Proof.
  destruct (email_username_domains_step
              (mkOS {[ "EMAIL_USERNAME_DOMAINS" := "" ]} ∅) zeroConfig)
    as [_ Hset].
  destruct (Hset "" eq_refl) as (domains & -> & Hlen & Hjoin & _).
  destruct domains as [|d [|d' ds]]; try discriminate Hlen.
  cbn in Hjoin. now rewrite Hjoin.
Defined.

End ListStepExamples.

Section OptionalSteps.
Context `{Packages}.

Ltac url_step :=
  unfold lookupURL;
  match goal with
  | |- context [LookupEnv ?os ?name] =>
      destruct (LookupEnv os name) as [raw|];
      [destruct (url_Parse raw) as [[u|] [e|]]|]
  end;
  eexists _, _; (split; [reflexivity|]); split; eauto; discriminate.

(** X9. Each of the three steps for a notified endpoint never panics and
    either leaves the record exactly as it was or, without error, stores a
    URL that is not nil: it never clears the field; an unset variable is no
    error and leaves the record as it was. *)
Theorem notification_url_steps (os : OS) (c : Config) :
  (exists err c',
     configureAppPasswordChangedURL os c = Returns (err, c')
     /\ (c' = c
         \/ exists u, err = None /\ c' = set_AppPasswordChangedURL (Some u) c)
     /\ (LookupEnv os "APP_PASSWORD_CHANGED_URL" = None ->
         err = None /\ c' = c))
  /\ (exists err c',
        configureAppPasswordResetURL os c = Returns (err, c')
        /\ (c' = c
            \/ exists u, err = None /\ c' = set_AppPasswordResetURL (Some u) c)
        /\ (LookupEnv os "APP_PASSWORD_RESET_URL" = None ->
            err = None /\ c' = c))
  /\ (exists err c',
        configureAppPasswordlessTokenURL os c = Returns (err, c')
        /\ (c' = c
            \/ exists u,
                 err = None /\ c' = set_AppPasswordlessTokenURL (Some u) c)
        /\ (LookupEnv os "APP_PASSWORDLESS_TOKEN_URL" = None ->
            err = None /\ c' = c)).
Proof.
  split; [|split].
  - unfold configureAppPasswordChangedURL. url_step.
  - unfold configureAppPasswordResetURL. url_step.
  - unfold configureAppPasswordlessTokenURL. url_step.
Qed.

Lemma reporter_fields (v : string) (t : ops_ErrorReporterType) (c : Config) :
  ErrorReporterType (set_ErrorReporterType t (set_ErrorReporterCredentials v c))
  = t
  /\ ErrorReporterCredentials
       (set_ErrorReporterType t (set_ErrorReporterCredentials v c)) = v.
Proof. now destruct c. Qed.

(** X10. The SENTRY_DSN step followed by the AIRBRAKE_CREDENTIALS step, as
    the list of configurers orders them, never fails; when
    AIRBRAKE_CREDENTIALS is set the reporter is Airbrake with those
    credentials, whether SENTRY_DSN is set or not; when only SENTRY_DSN is
    set the reporter is Sentry with the DSN; when neither is set the record
    is as it was. *)
Theorem error_reporter_steps (os : OS) (c : Config) :
  exists c1 c2,
    configureSentryDSN os c = Returns (None, c1)
    /\ configureAirbrakeCredentials os c1 = Returns (None, c2)
    /\ (forall creds, LookupEnv os "AIRBRAKE_CREDENTIALS" = Some creds ->
        ErrorReporterType c2 = ops_Airbrake
        /\ ErrorReporterCredentials c2 = creds)
    /\ (forall dsn, LookupEnv os "AIRBRAKE_CREDENTIALS" = None ->
        LookupEnv os "SENTRY_DSN" = Some dsn ->
        ErrorReporterType c2 = ops_Sentry /\ ErrorReporterCredentials c2 = dsn)
    /\ (LookupEnv os "AIRBRAKE_CREDENTIALS" = None ->
        LookupEnv os "SENTRY_DSN" = None -> c2 = c).
Proof.
  unfold configureSentryDSN, configureAirbrakeCredentials.
  destruct (LookupEnv os "SENTRY_DSN") as [dsn|];
    destruct (LookupEnv os "AIRBRAKE_CREDENTIALS") as [creds|];
    eexists _, _; (split; [reflexivity|]); (split; [reflexivity|]);
    repeat split; try discriminate; intros; simplify_eq;
    try apply reporter_fields; reflexivity.
Qed.

(** X11. An unset TIME_ZONE is the same as TIME_ZONE set to UTC. *)
Theorem time_zone_defaults_to_utc (os : OS) (c : Config) :
  LookupEnv os "TIME_ZONE" = None ->
  configureTimeZone os c = configureTimeZone (Setenv os "TIME_ZONE" "UTC") c.
Proof.
  intros Hunset. unfold configureTimeZone, LookupEnv, Setenv in *. cbn.
  now rewrite Hunset, lookup_insert_eq.
Qed.

End OptionalSteps.

Section OptionalStepExamples.

Lemma time_zone_defaults_to_utc_witness :
  configureTimeZone (mkOS ∅ ∅) zeroConfig
  = Returns (None, @set_StatisticsTimeZone offline (Some "UTC") zeroConfig).
Proof.
  assert (Hunset : LookupEnv (mkOS ∅ ∅) "TIME_ZONE" = None) by reflexivity.
  rewrite (time_zone_defaults_to_utc (mkOS ∅ ∅) zeroConfig Hunset).
  reflexivity.
Defined.

End OptionalStepExamples.

Section PortStep.
Context `{Externals}.

Lemma digit_is_no_sign (ch : ascii) (d : Z) :
  strconv.digit ch = Some d ->
  Ascii.eqb ch "-" = false /\ Ascii.eqb ch "+" = false.
Proof.
  intros Hd.
  split; match goal with |- Ascii.eqb ch ?x = _ =>
           destruct (Ascii.eqb_spec ch x) as [->|]; [discriminate|reflexivity]
         end.
Qed.

(** On a run of digits [strconv.Atoi] gives the number, or the largest
    [int] when the number is beyond it. *)
Lemma Atoi_of_digits (s : string) (n : Z) :
  strconv.digits 0 s = Some n ->
  fst (strconv.Atoi s) = Z.min n strconv.maxInt.
Proof.
  intros Hn. destruct s as [|ch rest].
  - injection Hn as <-. reflexivity.
  - assert (Hch : exists d, strconv.digit ch = Some d).
    { cbn in Hn. destruct (strconv.digit ch); [eauto|discriminate]. }
    destruct Hch as [d Hd]. destruct (digit_is_no_sign ch d Hd) as [Hm Hp].
    unfold strconv.Atoi. rewrite Hm, Hp. cbn [orb]. rewrite Hn.
    destruct (Z.leb_spec n strconv.maxInt); cbn [fst]; lia.
Qed.

(** The port of a URL is a run of digits, possibly empty. *)
Lemma Port_is_digits (u : url.URL) :
  exists n, strconv.digits 0 (url.Port u) = Some n.
Proof.
  apply digits_allDigits. unfold url.Port, url.splitHostPort.
  destruct (url.cutLast ":" (url.Host u)) as [[before after]|].
  - unfold url.validOptionalPort.
    destruct (url.allDigits after) eqn:Hafter.
    + now destruct (_ && _).
    + now destruct (_ && _).
  - now destruct (_ && _).
Qed.

(** X12. With PORT unset the step can neither fail nor panic once the
    issuer URL is in the record (whatever that URL is): the server port is
    the number after the last colon of its host, the largest [int] when
    that number is beyond it, and 0 when the host has no port. *)
Theorem port_step_unset_never_fails (os : OS) (c : Config) (u : url.URL) :
  AuthNURL c = Some u -> LookupEnv os "PORT" = None ->
  exists n,
    strconv.digits 0 (url.Port u) = Some n
    /\ configurePort os c
       = Returns (None, set_ServerPort (Z.min n strconv.maxInt) c).
Proof.
  intros Hu Hunset. destruct (Port_is_digits u) as [n Hn].
  exists n. split; [exact Hn|].
  unfold configurePort, lookupInt. rewrite Hu, Hunset.
  pose proof (Atoi_of_digits _ _ Hn) as Hfst.
  destruct (strconv.Atoi (url.Port u)) as [defaultPort err].
  cbn [fst] in Hfst. now rewrite Hfst.
Qed.

(** X13. The step dereferences the issuer URL before it looks at PORT: with
    the issuer URL in the record, a PORT that is the decimal text of a
    64-bit integer becomes the server port whatever the port of the issuer
    is; with no issuer URL in the record the step panics, PORT set or
    not. *)
Theorem port_step_reads_issuer_first (os : OS) (c : Config) :
  (forall u n, AuthNURL c = Some u ->
     strconv.minInt <= n <= strconv.maxInt ->
     LookupEnv os "PORT" = Some (formatInt n) ->
     configurePort os c = Returns (None, set_ServerPort n c))
  /\ (AuthNURL c = None ->
      configurePort os c
      = Panics "invalid memory address or nil pointer dereference").
Proof.
  unfold configurePort, lookupInt. split.
  - intros u n -> Hn ->. destruct (strconv.Atoi (url.Port u)).
    now rewrite Atoi_formatInt.
  - now intros ->.
Qed.

End PortStep.

Section PortStepExamples.

Lemma port_step_unset_never_fails_witness :
  configurePort (mkOS ∅ ∅) (set_AuthNURL (Some issuerWithHugePort) zeroConfig)
  = Returns (None,
      set_ServerPort 9223372036854775807
        (set_AuthNURL (Some issuerWithHugePort) zeroConfig)).
Proof.
  assert (Hunset : LookupEnv (mkOS ∅ ∅) "PORT" = None) by reflexivity.
  assert (Hu : AuthNURL (set_AuthNURL (Some issuerWithHugePort) zeroConfig)
               = Some issuerWithHugePort) by reflexivity.
  destruct (port_step_unset_never_fails (mkOS ∅ ∅) _ _ Hu Hunset)
    as (n & Hn & ->).
  injection Hn as <-. reflexivity.
Defined.

Lemma port_step_reads_issuer_first_witness :
  configurePort (mkOS {[ "PORT" := "3000" ]} ∅)
    (set_AuthNURL (Some exampleIssuer) zeroConfig)
  = Returns (None,
      set_ServerPort 3000 (set_AuthNURL (Some exampleIssuer) zeroConfig))
  /\ configurePort (mkOS {[ "PORT" := "3000" ]} ∅) zeroConfig
     = Panics "invalid memory address or nil pointer dereference".
Proof.
  assert (Hn : strconv.minInt <= 3000 <= strconv.maxInt)
    by (unfold strconv.minInt, strconv.maxInt; lia).
  assert (Hset : LookupEnv (mkOS {[ "PORT" := "3000" ]} ∅) "PORT"
                 = Some (formatInt 3000)) by reflexivity.
  split.
  - destruct (port_step_reads_issuer_first (mkOS {[ "PORT" := "3000" ]} ∅)
                (set_AuthNURL (Some exampleIssuer) zeroConfig)) as [Hport _].
    refine (Hport exampleIssuer 3000 _ Hn Hset). reflexivity.
  - destruct (port_step_reads_issuer_first (mkOS {[ "PORT" := "3000" ]} ∅)
                zeroConfig) as [_ Hnil].
    apply Hnil. reflexivity.
Defined.

End PortStepExamples.

Section MoreOfTheClaimedSteps.
Context `{Packages}.

Ltac bool_step :=
  unfold lookupBool, regexp.MatchString; split;
  [intros val Hset; rewrite Hset; eexists; split;
     [reflexivity|apply truthyPattern_matches]
  |intros Hunset; now rewrite Hunset].

(** X14. For each of the three boolean steps a value that is set decides the
    field by the vocabulary alone: true iff it matches [t], [true] or [yes]
    without regard to case, false for every other value; so any other value
    of ENABLE_SIGNUP disables signup, whose default is true, while for
    USERNAME_IS_EMAIL and PROXIED any other value is like an unset
    variable. *)
Theorem boolean_steps_by_vocabulary (os : OS) (c : Config) :
  ((forall val, LookupEnv os "ENABLE_SIGNUP" = Some val ->
      exists b, configureEnableSignup os c = Returns (None, set_EnableSignup b c)
        /\ (b = true <-> exists w, In w truthyVocabulary /\ EqualFold val w))
   /\ (LookupEnv os "ENABLE_SIGNUP" = None ->
       configureEnableSignup os c = Returns (None, set_EnableSignup true c)))
  /\ ((forall val, LookupEnv os "USERNAME_IS_EMAIL" = Some val ->
         exists b,
           configureUsernameIsEmail os c
           = Returns (None, set_UsernameIsEmail b c)
           /\ (b = true <-> exists w, In w truthyVocabulary /\ EqualFold val w))
      /\ (LookupEnv os "USERNAME_IS_EMAIL" = None ->
          configureUsernameIsEmail os c
          = Returns (None, set_UsernameIsEmail false c)))
  /\ ((forall val, LookupEnv os "PROXIED" = Some val ->
         exists b, configureProxied os c = Returns (None, set_Proxied b c)
           /\ (b = true <-> exists w, In w truthyVocabulary /\ EqualFold val w))
      /\ (LookupEnv os "PROXIED" = None ->
          configureProxied os c = Returns (None, set_Proxied false c))).
Proof.
  split; [|split].
  - unfold configureEnableSignup. bool_step.
  - unfold configureUsernameIsEmail. bool_step.
  - unfold configureProxied. bool_step.
Qed.



(** X16. The DATABASE_URL step never panics, and the only error it can
    return is the missing-variable error that names DATABASE_URL, which
    leaves the record as it was: it returns that error only when reading
    through DATABASE_URL_FILE failed and DATABASE_URL gave neither a URL nor
    an error; the error of a file that cannot be read or parsed is not
    returned, and when DATABASE_URL does not parse either, the step returns
    no error. *)
Theorem database_url_step_errors (os : OS) (c : Config) :
  exists err c',
    configureDatabaseURL os c = Returns (err, c')
    /\ (err = None
        \/ (err = Some (ErrMissingEnvVar "DATABASE_URL") /\ c' = c))
    /\ (err <> None ->
        snd (lookupSecureURL os "DATABASE_URL_FILE") <> None
        /\ lookupURL os "DATABASE_URL" = (None, None))
    /\ (forall e, snd (lookupURL os "DATABASE_URL") = Some e ->
        err = None
        /\ c' = set_DatabaseURL (fst (lookupSecureURL os "DATABASE_URL_FILE")) c).
Proof.
  unfold configureDatabaseURL.
  destruct (lookupSecureURL os "DATABASE_URL_FILE") as [val [e1|]];
    [destruct (lookupURL os "DATABASE_URL") as [[u|] [e2|]]|];
    eexists _, _; (split; [reflexivity|]); cbn [fst snd];
    repeat split; eauto; try easy.
Qed.

Lemma derivedKeys_twice (base : list byte) (c : Config) :
  derivedKeys base (derivedKeys base c) = derivedKeys base c.
Proof. destruct c. reflexivity. Qed.

(** X17. When the SECRET_KEY_BASE step has returned without error, running
    it again on the record it left changes nothing; and the five keys it
    leaves do not depend on the record it is given: in the same
    environment, two runs that succeed on any two records leave the same
    five keys. *)
Theorem secret_key_base_step_again (os : OS) (c c' : Config) :
  configureSecretKeyBase os c = Returns (None, c') ->
  configureSecretKeyBase os c' = Returns (None, c')
  /\ (forall d d', configureSecretKeyBase os d = Returns (None, d') ->
      SessionSigningKey d' = SessionSigningKey c'
      /\ ResetSigningKey d' = ResetSigningKey c'
      /\ PasswordlessTokenSigningKey d' = PasswordlessTokenSigningKey c'
      /\ DBEncryptionKey d' = DBEncryptionKey c'
      /\ OAuthSigningKey d' = OAuthSigningKey c').
Proof.
  intros Hstep.
  apply configureSecretKeyBase_success in Hstep as (base & Hbase & ->).
  split.
  - rewrite (configureSecretKeyBase_with_base os _ base Hbase).
    now rewrite derivedKeys_twice.
  - intros d d' Hd.
    apply configureSecretKeyBase_success in Hd as (base' & Hbase' & ->).
    rewrite Hbase in Hbase'. injection Hbase' as <-.
    cbn -[derive firstn]. auto 6.
Qed.

End MoreOfTheClaimedSteps.

Section MoreOfTheClaimedStepsExamples.

Lemma boolean_steps_by_vocabulary_witness :
  configureEnableSignup (mkOS {[ "ENABLE_SIGNUP" := "on" ]} ∅) zeroConfig
  = Returns (None, set_EnableSignup false zeroConfig).
Proof.
  destruct (boolean_steps_by_vocabulary
              (mkOS {[ "ENABLE_SIGNUP" := "on" ]} ∅) zeroConfig)
    as ((Hset & _) & _).
  destruct (Hset "on" eq_refl) as (b & -> & Hb).
  destruct b; [exfalso|reflexivity].
  destruct (proj1 Hb eq_refl) as (w & [<-|[<-|[<-|[]]]] & Hfold);
    unfold EqualFold in Hfold; vm_compute in Hfold;
    inversion Hfold as [|a b s t Hab Hrest]; subst; discriminate Hab.
Defined.


Lemma secret_key_base_step_again_witness :
  configureSecretKeyBase osDirectSecret
    (derivedKeys (bytes_of_string "s3cret") zeroConfig)
  = Returns (None, derivedKeys (bytes_of_string "s3cret") zeroConfig).
Proof.
  refine (proj1 (secret_key_base_step_again osDirectSecret zeroConfig
                   (derivedKeys (bytes_of_string "s3cret") zeroConfig) _)).
  apply configureSecretKeyBase_with_base. reflexivity.
Defined.

End MoreOfTheClaimedStepsExamples.

Section FailingSteps.
Context `{Packages}.

Ltac leaves_record :=
  intros os c e c';
  unfold lookupInt, lookupURL, lookupSecureURL, lookupBool, requireEnv,
    regexp.MatchString, ReadFile;
  repeat case_match; intros; simplify_eq; reflexivity.

Lemma secret_step_leaves_record : leavesRecordOnError configureSecretKeyBase.
Proof.
  intros os c e c' Hstep.
  pose proof (configureSecretKeyBase_obtained os c) as Hob.
  destruct (obtainedBase os); [congruence|].
  destruct Hob as [e' He']. congruence.
Qed.

(** X18. Every step that only reads the environment, the RSA_PRIVATE_KEY
    step apart, has left the record exactly as it was given it whenever it
    returns an error: a failing step makes no partial update. *)
Theorem failing_steps_leave_record :
  Forall leavesRecordOnError
    [configureAppDomains; configureAuthNURL; configureSecretKeyBase;
     configureBcryptCost; configurePasswordPolicyScore; configureDatabaseURL;
     configureRedisURL; configureUsernameIsEmail; configureEnableSignup;
     configureEmailUsernameDomains; configureRefreshTokenTTL;
     configurePasswordResetTokenTTL; configurePasswordlessTokenTTL;
     configureAccessTokenTTL; configureAppPasswordChangedURL;
     configureAppPasswordResetURL; configureAppPasswordlessTokenURL;
     configureTimeZone; configureDailyActivesRetention;
     configureWeeklyActivesRetention; configureSentryDSN;
     configureAirbrakeCredentials; configurePort; configurePublicPort;
     configureProxied; configureGoogleOauth; configureGitHubOauth;
     configureFacebookOauth; configureDiscordOauth].
Proof.
  repeat apply Forall_cons_2; [..|apply Forall_nil_2].
  - unfold configureAppDomains. leaves_record.
  - unfold configureAuthNURL. leaves_record.
  - apply secret_step_leaves_record.
  - unfold configureBcryptCost. leaves_record.
  - unfold configurePasswordPolicyScore. leaves_record.
  - unfold configureDatabaseURL. leaves_record.
  - unfold configureRedisURL. leaves_record.
  - unfold configureUsernameIsEmail. leaves_record.
  - unfold configureEnableSignup. leaves_record.
  - unfold configureEmailUsernameDomains. leaves_record.
  - unfold configureRefreshTokenTTL. leaves_record.
  - unfold configurePasswordResetTokenTTL. leaves_record.
  - unfold configurePasswordlessTokenTTL. leaves_record.
  - unfold configureAccessTokenTTL. leaves_record.
  - unfold configureAppPasswordChangedURL. leaves_record.
  - unfold configureAppPasswordResetURL. leaves_record.
  - unfold configureAppPasswordlessTokenURL. leaves_record.
  - unfold configureTimeZone. leaves_record.
  - unfold configureDailyActivesRetention. leaves_record.
  - unfold configureWeeklyActivesRetention. leaves_record.
  - unfold configureSentryDSN. leaves_record.
  - unfold configureAirbrakeCredentials. leaves_record.
  - unfold configurePort. leaves_record.
  - unfold configurePublicPort. leaves_record.
  - unfold configureProxied. leaves_record.
  - unfold configureGoogleOauth. leaves_record.
  - unfold configureGitHubOauth. leaves_record.
  - unfold configureFacebookOauth. leaves_record.
  - unfold configureDiscordOauth. leaves_record.
Qed.

(** The RSA_PRIVATE_KEY step is the exception: when [private.NewKey] fails,
    the step returns its error after it has stored what [private.NewKey]
    returned beside it. *)
Lemma rsa_step_on_error (os : OS) (c : Config) (e : error) (c' : Config) :
  configureRSAPrivateKey os c = Returns (Some e, c') ->
  c' = c \/ exists k, c' = set_IdentitySigningKey k c.
Proof.
  unfold configureRSAPrivateKey.
  repeat case_match; intros; simplify_eq; eauto.
Qed.

End FailingSteps.

Section HTTPAuth.
Context `{Packages}.

(** X19. With both variables set the HTTP_AUTH step stores them and reads
    no random number; with neither set it reads two random numbers, the
    first for the user name and the second for the password, each stored in
    decimal. *)
Theorem http_auth_step_sources (os : OS) (c : Config) (r : Reader) :
  (forall user pass,
     LookupEnv os "HTTP_AUTH_USERNAME" = Some user ->
     LookupEnv os "HTTP_AUTH_PASSWORD" = Some pass ->
     configureHTTPAuth os c r
     = Returns (None, set_AuthPassword pass (set_AuthUsername user c), r))
  /\ (forall n m,
        LookupEnv os "HTTP_AUTH_USERNAME" = None ->
        LookupEnv os "HTTP_AUTH_PASSWORD" = None ->
        reads r (position r) = Some n ->
        reads r (S (position r)) = Some m ->
        configureHTTPAuth os c r
        = Returns (None,
            set_AuthPassword (formatInt m) (set_AuthUsername (formatInt n) c),
            mkReader (reads r) (S (S (position r))))).
Proof.
  unfold configureHTTPAuth, rand_Int. split.
  - now intros user pass -> ->.
  - intros n m -> -> Hn Hm. rewrite Hn. cbn. now rewrite Hm.
Qed.

(** X20. When the read for the user name fails, the step returns the error
    with the record as it was; when the user name is in place (from its
    variable or from a read) and the read for the password fails, the step
    returns the error with the new user name already in the record. *)
Theorem http_auth_step_failures (os : OS) (c : Config) (r : Reader) :
  (LookupEnv os "HTTP_AUTH_USERNAME" = None ->
   reads r (position r) = None ->
   configureHTTPAuth os c r
   = Returns (Some (LibError "rand" "read"), c,
              mkReader (reads r) (S (position r))))
  /\ (forall user,
        LookupEnv os "HTTP_AUTH_USERNAME" = Some user ->
        LookupEnv os "HTTP_AUTH_PASSWORD" = None ->
        reads r (position r) = None ->
        configureHTTPAuth os c r
        = Returns (Some (LibError "rand" "read"), set_AuthUsername user c,
                   mkReader (reads r) (S (position r))))
  /\ (forall n,
        LookupEnv os "HTTP_AUTH_USERNAME" = None ->
        LookupEnv os "HTTP_AUTH_PASSWORD" = None ->
        reads r (position r) = Some n ->
        reads r (S (position r)) = None ->
        configureHTTPAuth os c r
        = Returns (Some (LibError "rand" "read"),
                   set_AuthUsername (formatInt n) c,
                   mkReader (reads r) (S (S (position r))))).
Proof.
  unfold configureHTTPAuth, rand_Int. split; [|split].
  - now intros -> ->.
  - now intros user -> -> ->.
  - intros n -> -> Hn Hm. rewrite Hn. cbn. now rewrite Hm.
Qed.

End HTTPAuth.

Section HTTPAuthExamples.

Lemma http_auth_step_sources_witness :
  configureHTTPAuth (mkOS ∅ ∅) zeroConfig countingReader
  = Returns (None,
      set_AuthPassword "10000002" (set_AuthUsername "10000001" zeroConfig),
      mkReader (reads countingReader) 2).
Proof.
  destruct (http_auth_step_sources (mkOS ∅ ∅) zeroConfig countingReader)
    as [_ Hrandom].
  assert (Hu : LookupEnv (mkOS ∅ ∅) "HTTP_AUTH_USERNAME" = None) by reflexivity.
  assert (Hp : LookupEnv (mkOS ∅ ∅) "HTTP_AUTH_PASSWORD" = None) by reflexivity.
  exact (Hrandom 10000001 10000002 Hu Hp eq_refl eq_refl).
Defined.

Lemma http_auth_step_failures_witness :
  configureHTTPAuth (mkOS ∅ ∅) zeroConfig oneGoodRead
  = Returns (Some (LibError "rand" "read"),
      set_AuthUsername "42" zeroConfig,
      mkReader (reads oneGoodRead) 2).
Proof.
  destruct (http_auth_step_failures (mkOS ∅ ∅) zeroConfig oneGoodRead)
    as (_ & _ & Hsecond).
  assert (Hu : LookupEnv (mkOS ∅ ∅) "HTTP_AUTH_USERNAME" = None) by reflexivity.
  assert (Hp : LookupEnv (mkOS ∅ ∅) "HTTP_AUTH_PASSWORD" = None) by reflexivity.
  exact (Hsecond 42 Hu Hp eq_refl eq_refl).
Defined.

End HTTPAuthExamples.

Section ArchiverCalls.
Context `{Stores}.

(** X21. When [Archive] returns an error, [AccountArchiver] returns that
    error wrapped with the label [Archive], whatever [Archive] says about an
    affected row; the refresh-token store is not called and keeps its
    state. *)
Theorem archiver_store_error (accountID : Z) (w : World) (affected : bool)
    (e : error) (accounts' : AccountStore) :
  Archive (accounts w) accountID = (affected, Some e, accounts') ->
  AccountArchiver accountID w
  = (Some (Wrap e "Archive"),
     mkWorld accounts' (tokens w) (calls w ++ [CallArchive accountID])).
Proof.
  intros Harchive. unfold AccountArchiver, callArchive. now rewrite Harchive.
Qed.

(** X22. Whatever the stores answer, [AccountArchiver] calls [Archive]
    exactly once, first, and leaves the account store as that call left it;
    it calls [LogoutAccount] at most once, after it, and exactly when
    [Archive] reported an affected row and no error. *)
Theorem archiver_call_discipline (accountID : Z) (w : World) :
  exists rest,
    calls (snd (AccountArchiver accountID w))
    = calls w ++ CallArchive accountID :: rest
    /\ accounts (snd (AccountArchiver accountID w))
       = snd (Archive (accounts w) accountID)
    /\ ((rest = [CallLogoutAccount accountID]
         /\ fst (Archive (accounts w) accountID) = (true, None))
        \/ (rest = []
            /\ fst (Archive (accounts w) accountID) <> (true, None)
            /\ tokens (snd (AccountArchiver accountID w)) = tokens w)).
Proof.
  unfold AccountArchiver, callArchive, callLogoutAccount.
  destruct (Archive (accounts w) accountID) as [[affected [e|]] accounts'].
  - exists []. cbn. repeat split; try reflexivity. right. now repeat split.
  - destruct affected; cbn.
    + destruct (LogoutAccount (tokens w) accountID) as [err tokens'].
      exists [CallLogoutAccount accountID]. cbn.
      split; [now rewrite <- app_assoc|]. split; [reflexivity|]. now left.
    + exists []. cbn. repeat split; try reflexivity. right. now repeat split.
Qed.

End ArchiverCalls.

Section ArchiverCallExamples.

Lemma archiver_store_error_witness :
  @AccountArchiver downStores 7 (@mkWorld downStores tt tt [])
  = (Some (Wrap (LibError "sql" "connection refused") "Archive"),
     @mkWorld downStores tt tt [CallArchive 7]).
Proof.
  exact (@archiver_store_error downStores 7 (@mkWorld downStores tt tt [])
           true (LibError "sql" "connection refused") tt eq_refl).
Defined.

End ArchiverCallExamples.

Section RSAStep.
Context `{Externals}.

(** X23. The RSA_PRIVATE_KEY step leaves the record as it is when the
    variable is unset; whatever it returns, it has changed no field but
    [IdentitySigningKey]; and when it returns without error on a set
    variable, the key it has stored is what [private.NewKey] made of the key
    that [x509.ParsePKCS1PrivateKey] read from the bytes of the block that
    [pem.Decode] found in the value with its escaped line feeds replaced,
    none of the three having failed. *)
Theorem rsa_step_frame (os : OS) (c : Config) :
  (LookupEnv os "RSA_PRIVATE_KEY" = None ->
   configureRSAPrivateKey os c = Returns (None, c))
  /\ (forall err c', configureRSAPrivateKey os c = Returns (err, c') ->
      c' = c \/ exists k, c' = set_IdentitySigningKey k c)
  /\ (forall str c',
        LookupEnv os "RSA_PRIVATE_KEY" = Some str ->
        configureRSAPrivateKey os c = Returns (None, c') ->
        exists b rest key k,
          pem_Decode
            (bytes_of_string (strings.ReplaceAll str "\n" (String LF "")))
          = (Some b, rest)
          /\ x509_ParsePKCS1PrivateKey (pem.Bytes b) = (key, None)
          /\ private_NewKey key = (k, None)
          /\ c' = set_IdentitySigningKey k c).
Proof.
  unfold configureRSAPrivateKey. split; [|split].
  - now intros ->.
  - intros err c'. repeat case_match; intros; simplify_eq; eauto.
  - intros str c' ->.
    destruct (pem_Decode _) as [[b|] rest]; [|discriminate].
    destruct (x509_ParsePKCS1PrivateKey (pem.Bytes b)) as [key [e|]] eqn:Hkey;
      [discriminate|].
    destruct (private_NewKey key) as [k [e|]] eqn:Hk; [discriminate|].
    intros [= <-]. exists b, rest, key, k. auto.
Qed.

End RSAStep.

Section Escapes.
Context `{Externals}.

Lemma prefix_cons (a b : ascii) (s t : string) :
  String.prefix (String a s) (String b t)
  = if Ascii.ascii_dec a b then String.prefix s t else false.
Proof. reflexivity. Qed.

Lemma prefix_empty (t : string) : String.prefix "" t = true.
Proof. now destruct t. Qed.

(** A text starts with the escape iff it starts with a backslash and an
    [n]. *)
Lemma prefix_escape (s : string) :
  String.prefix escapedLF s = true <-> exists rest, s = escapedLF +:+ rest.
Proof.
  unfold escapedLF. split.
  - destruct s as [|a [|b rest]]; try discriminate; intros Hpre.
    + rewrite prefix_cons in Hpre. now destruct (Ascii.ascii_dec _ _).
    + rewrite !prefix_cons in Hpre.
      destruct (Ascii.ascii_dec "\" a) as [<-|]; [|discriminate].
      destruct (Ascii.ascii_dec "n" b) as [<-|]; [|discriminate].
      now exists rest.
  - intros [rest ->].
    change ("\n" +:+ rest) with (String "\" (String "n" rest)).
    rewrite !prefix_cons.
    destruct (Ascii.ascii_dec "\" "\"); [|easy].
    destruct (Ascii.ascii_dec "n" "n"); [|easy]. apply prefix_empty.
Qed.

Lemma replace_escape_here (rest : string) :
  strings.replace 0 (escapedLF +:+ rest) escapedLF (String LF "")
  = String LF (strings.replace 0 rest escapedLF (String LF "")).
Proof.
  assert (Hpre : String.prefix escapedLF (escapedLF +:+ rest) = true)
    by (apply prefix_escape; eauto).
  unfold escapedLF in *.
  change ("\n" +:+ rest) with (String "\" (String "n" rest)) in *.
  cbn [strings.replace]. rewrite Hpre. reflexivity.
Qed.

Lemma replace_escape_not_here (ch : ascii) (rest : string) :
  String.prefix escapedLF (String ch rest) = false ->
  strings.replace 0 (String ch rest) escapedLF (String LF "")
  = String ch (strings.replace 0 rest escapedLF (String LF "")).
Proof. intros Hpre. cbn [strings.replace]. now rewrite Hpre. Qed.

(** Where no escape starts, the replacement changes nothing. *)
Lemma ReplaceAll_without_escape (s : string) :
  pem.contains escapedLF s = false ->
  strings.ReplaceAll s escapedLF (String LF "") = s.
Proof.
  unfold strings.ReplaceAll.
  induction s as [|ch s IH]; [reflexivity|].
  intros Hs. cbn [pem.contains] in Hs.
  apply orb_false_elim in Hs as [Hhead Htail].
  rewrite replace_escape_not_here by assumption. f_equal. now apply IH.
Qed.

(** What the replacement makes starts with an [n] only if the text did. *)
Lemma replace_head_n (s t : string) :
  strings.replace 0 s escapedLF (String LF "") = String "n" t ->
  exists rest, s = String "n" rest.
Proof.
  destruct s as [|ch rest]; [discriminate|].
  destruct (String.prefix escapedLF (String ch rest)) eqn:Hpre.
  - apply prefix_escape in Hpre as [rest' Hs]. rewrite Hs.
    rewrite replace_escape_here. discriminate.
  - rewrite replace_escape_not_here by assumption.
    intros [= -> _]. eauto.
Qed.

(** After the replacement no escape is left. *)
Lemma ReplaceAll_leaves_no_escape (s : string) :
  pem.contains escapedLF (strings.ReplaceAll s escapedLF (String LF ""))
  = false.
Proof.
  unfold strings.ReplaceAll.
  assert (Hlen : forall n s, (String.length s <= n)%nat ->
            pem.contains escapedLF
              (strings.replace 0 s escapedLF (String LF "")) = false).
  { clear s. induction n as [|n IH]; intros s Hs.
    - destruct s; [reflexivity|cbn in Hs; lia].
    - destruct s as [|ch rest]; [reflexivity|].
      destruct (String.prefix escapedLF (String ch rest)) eqn:Hpre.
      + apply prefix_escape in Hpre as [rest' Heq]. rewrite Heq.
        rewrite replace_escape_here. cbn [pem.contains].
        rewrite IH.
        * unfold escapedLF. rewrite prefix_cons.
          now destruct (Ascii.ascii_dec "\" LF).
        * assert (String.length (String ch rest)
                  = S (S (String.length rest'))) by now rewrite Heq.
          cbn in Hs, H0. lia.
      + rewrite replace_escape_not_here by assumption. cbn [pem.contains].
        rewrite IH by (cbn in Hs; lia). rewrite orb_false_r.
        match goal with
        | |- ?test = false => destruct test eqn:Hout; [|reflexivity]
        end.
        apply prefix_escape in Hout as [tail Hout].
        unfold escapedLF in Hout.
        change ("\n" +:+ tail) with (String "\" (String "n" tail)) in Hout.
        injection Hout as -> Hrest.
        apply replace_head_n in Hrest as [rest' ->].
        assert (String.prefix escapedLF (String "\" (String "n" rest')) = true)
          by (apply prefix_escape; now exists rest').
        congruence. }
  apply (Hlen (String.length s)). lia.
Qed.

(** X24. For the RSA_PRIVATE_KEY step a key written on one line with escaped
    line feeds and the same key written with real line breaks are the same
    value: the step does to the one what it does to the other. *)
Theorem rsa_step_escaped_or_not (os : OS) (c : Config) (str : string) :
  configureRSAPrivateKey (Setenv os "RSA_PRIVATE_KEY" str) c
  = configureRSAPrivateKey
      (Setenv os "RSA_PRIVATE_KEY"
         (strings.ReplaceAll str escapedLF (String LF ""))) c.
Proof.
  unfold configureRSAPrivateKey, LookupEnv, Setenv. cbn [environ].
  rewrite !lookup_insert_eq. fold escapedLF.
  now rewrite (ReplaceAll_without_escape _ (ReplaceAll_leaves_no_escape str)).
Qed.

End Escapes.

Section SecureURL.
Context `{Externals}.


End SecureURL.

Section SecureURLExamples.


End SecureURLExamples.

Section RemainingSteps.
Context `{Packages}.

Lemma RedisURL_set (v : option url.URL) (c : Config) :
  RedisURL (set_RedisURL v c) = v.
Proof. now destruct c. Qed.

(** X26. The REDIS_URL step never panics and never asks for its variable:
    the error it returns is the error of [lookupURL], after which the record
    is as it was; without error the field holds what [lookupURL] returned, so
    an unset REDIS_URL is no error and leaves the field nil, whatever it held
    before. *)
Theorem redis_url_step (os : OS) (c : Config) :
  exists err c',
    configureRedisURL os c = Returns (err, c')
    /\ err = snd (lookupURL os "REDIS_URL")
    /\ (err = None -> c' = set_RedisURL (fst (lookupURL os "REDIS_URL")) c)
    /\ (err <> None -> c' = c)
    /\ (LookupEnv os "REDIS_URL" = None -> err = None /\ RedisURL c' = None).
Proof.
  unfold configureRedisURL.
  assert (Hunset : LookupEnv os "REDIS_URL" = None ->
            lookupURL os "REDIS_URL" = (None, None))
    by (intros Hnone; unfold lookupURL; now rewrite Hnone).
  destruct (lookupURL os "REDIS_URL") as [val [e|]] eqn:Hlookup.
  - exists (Some e), c. split; [reflexivity|]. split; [reflexivity|].
    split; [discriminate|]. split; [reflexivity|].
    intros Hnone. now specialize (Hunset Hnone).
  - exists None, (set_RedisURL val c). rewrite RedisURL_set.
    split; [reflexivity|]. split; [reflexivity|]. split; [reflexivity|].
    split; [easy|].
    intros Hnone. specialize (Hunset Hnone). split; congruence.
Qed.

Ltac oauth_step :=
  match goal with
  | |- context [LookupEnv ?os ?name] =>
      destruct (LookupEnv os name) as [val|];
      [destruct (oauth_NewCredentials val) as [creds [e|]]|]
  end;
  eexists _, _; (split; [reflexivity|]); split; eauto; discriminate.

(** X27. Each of the four steps for the credentials of an OAuth provider
    never panics and either leaves the record exactly as it was or, without
    error, has changed the field of its own provider only; an unset variable
    is no error and leaves the record as it was. *)
Theorem oauth_steps (os : OS) (c : Config) :
  (exists err c',
     configureGoogleOauth os c = Returns (err, c')
     /\ (c' = c
         \/ exists creds, err = None /\ c' = set_GoogleOauthCredentials creds c)
     /\ (LookupEnv os "GOOGLE_OAUTH_CREDENTIALS" = None -> err = None /\ c' = c))
  /\ (exists err c',
        configureGitHubOauth os c = Returns (err, c')
        /\ (c' = c
            \/ exists creds,
                 err = None /\ c' = set_GitHubOauthCredentials creds c)
        /\ (LookupEnv os "GITHUB_OAUTH_CREDENTIALS" = None ->
            err = None /\ c' = c))
  /\ (exists err c',
        configureFacebookOauth os c = Returns (err, c')
        /\ (c' = c
            \/ exists creds,
                 err = None /\ c' = set_FacebookOauthCredentials creds c)
        /\ (LookupEnv os "FACEBOOK_OAUTH_CREDENTIALS" = None ->
            err = None /\ c' = c))
  /\ (exists err c',
        configureDiscordOauth os c = Returns (err, c')
        /\ (c' = c
            \/ exists creds,
                 err = None /\ c' = set_DiscordOauthCredentials creds c)
        /\ (LookupEnv os "DISCORD_OAUTH_CREDENTIALS" = None ->
            err = None /\ c' = c)).
Proof.
  split; [|split; [|split]].
  - unfold configureGoogleOauth. oauth_step.
  - unfold configureGitHubOauth. oauth_step.
  - unfold configureFacebookOauth. oauth_step.
  - unfold configureDiscordOauth. oauth_step.
Qed.

End RemainingSteps.
